(** * The Cloudflare gateway of PMTiles: a shallow embedding

    This development embeds [serverless/cloudflare/src/index.ts] in Rocq:
    the range source adapter [R2Source.getBytes], the decompression stage
    [nativeDecompress], the font resolver [checkFonts], the listing
    aggregator [getAvailablePmTilesFromD1] and the request handler [fetch]
    with its edge cache and CORS handling.

    The handler is asynchronous but sequential: every [await] is a point
    where a collaborator (object store, metadata store, edge cache, archive
    reader) answers.  The embedding therefore runs in a small monad [M]
    that threads the one mutable object of a request, the [cacheableHeaders],
    together with a log of the calls made to collaborators, and that can
    raise the exceptions the source raises.  What the collaborators answer
    is data of the [World] a request runs in. *)

From Stdlib Require Import ZArith String Ascii List.
From stdpp Require Import gmap strings list fin_maps.
Open Scope string_scope.
Open Scope list_scope.
Open Scope Z_scope.

(** ** Strings, as the handler uses them *)

Module Str.

(** [String.prototype.toUpperCase] on one ASCII character. *)
Definition upper_ascii (c : ascii) : ascii :=
  let n := N_of_ascii c in
  if ((97 <=? n) && (n <=? 122))%N then ascii_of_N (n - 32) else c.

(** Header names are matched without regard to case: [Headers] stores
    them in lower case. *)
Definition lower_ascii (c : ascii) : ascii :=
  let n := N_of_ascii c in
  if ((65 <=? n) && (n <=? 90))%N then ascii_of_N (n + 32) else c.

Fixpoint map_ascii (f : ascii -> ascii) (s : string) : string :=
  match s with
  | EmptyString => EmptyString
  | String c r => String (f c) (map_ascii f r)
  end.

(** [s.toUpperCase()], for the ASCII tokens an HTTP method is made of. *)
Definition toUpperCase (s : string) : string := map_ascii upper_ascii s.
Definition toLowerCase (s : string) : string := map_ascii lower_ascii s.

(** [s.startsWith(p)]. *)
Definition startsWith (s p : string) : bool := String.prefix p s.

(** [s.substring(1)]. *)
Definition substring1 (s : string) : string :=
  match s with
  | EmptyString => EmptyString
  | String _ r => r
  end.

(** [s.split(c)] for a one-character separator: never the empty list. *)
Fixpoint split (c : ascii) (s : string) : list string :=
  match s with
  | EmptyString => [EmptyString]
  | String a r =>
      if decide (a = c) then EmptyString :: split c r
      else match split c r with
           | h :: t => String a h :: t
           | [] => [String a EmptyString]
           end
  end.

(** [s.replace(/%20/g, ' ')]: left to right, matches do not overlap. *)
Fixpoint replace_pct20 (s : string) : string :=
  match s with
  | EmptyString => EmptyString
  | String a r =>
      match a, r with
      | "%"%char, String "2"%char (String "0"%char r') =>
          String " "%char (replace_pct20 r')
      | _, _ => String a (replace_pct20 r)
      end
  end.

(** [a || b] on strings: the empty string and [undefined] are falsy. *)
Definition or_else (a : option string) (b : string) : string :=
  match a with
  | Some s => if decide (s = "") then b else s
  | None => b
  end.

(** A template literal prints a missing array element as [undefined]. *)
Definition interpolate (a : option string) : string :=
  match a with
  | Some s => s
  | None => "undefined"
  end.

End Str.

(** ** Data model *)

Abbreviation bytes := (list Byte.byte).

(** Modelled from the spec: the enum [TileType] is declared in the archive
    reader's module [js/index], which the gateway only imports; the spec
    gives its six values. *)
Inductive TileType := Unknown | Mvt | Png | Jpeg | Webp | Avif.

Global Instance TileType_eq_dec : EqDecision TileType.
Proof. solve_decision. Defined.

(** Modelled from the spec: the enum [Compression] is declared in [js/index]
    too.  The spec names the tags [None], [Unknown] and [Gzip] and speaks of
    any other tag; [COther] carries the number of such a tag. *)
Inductive Compression := CUnknown | CNone | CGzip | COther (tag : N).

Global Instance Compression_eq_dec : EqDecision Compression.
Proof. solve_decision. Defined.

(** The part of the archive header the gateway reads. *)
Record Header := mkHeader {
  minZoom : Z;
  maxZoom : Z;
  tileType : TileType
}.

(** [RangeResponse], what the archive reader expects of a source. *)
Record RangeResponse := mkRangeResponse {
  data : bytes;
  etag : option string;
  cacheControl : option string;
  expires : option string
}.

(** An object of the store as a conditional [BUCKET.get] hands it out:
    when the condition fails the object comes without a body.
    [o_cacheExpiry] is [httpMetadata.cacheExpiry] as an ISO string. *)
Record R2Object := mkR2Object {
  o_body : option bytes;
  o_etag : string;
  o_cacheControl : option string;
  o_cacheExpiry : option string
}.

(** The exceptions the code raises or lets through. *)
Inductive Exn :=
| KeyNotFoundError (msg : string)
| EtagMismatch
| TypeError (msg : string)
| SyntaxError (msg : string)
| Error (msg : string).

(** [Headers]: a map from lower-cased names to values. *)
Module Headers.
Abbreviation t := (gmap string string).
Definition set (h : t) (name value : string) : t :=
  <[Str.toLowerCase name := value]> h.
Definition get (h : t) (name : string) : option string :=
  h !! Str.toLowerCase name.
Definition has (h : t) (name : string) : bool :=
  bool_decide (is_Some (get h name)).
End Headers.

Arguments Headers.set : simpl never.
Arguments Headers.get : simpl never.

(** What can be given to [new Response] as a body. *)
Inductive BodyInit :=
| BUndefined
| BString (s : string)
| BArrayBuffer (b : bytes)
| BStream (b : bytes).

Record Response := mkResponse {
  status : Z;
  headers : Headers.t;
  body : option bytes
}.

(** [new Response(body, {headers, status})].  The headers are copied.  A
    string body is sent as UTF-8 text and, as the Fetch standard has it,
    brings a [Content-Type] of its own when the headers name none; buffers
    and streams bring none.  Every status the handler passes is a valid
    one, and so is the status of a response read from the cache. *)
Definition new_Response (b : BodyInit) (h : Headers.t) (st : Z) : Response :=
  match b with
  | BUndefined => mkResponse st h None
  | BString s =>
      mkResponse st
        (if Headers.has h "Content-Type" then h
         else Headers.set h "Content-Type" "text/plain;charset=UTF-8")
        (Some (list_byte_of_string s))
  | BArrayBuffer a => mkResponse st h (Some a)
  | BStream a => mkResponse st h (Some a)
  end.

(** [response.body]: a stream over the bytes, or [null]. *)
Definition body_stream (r : Response) : BodyInit :=
  match body r with
  | Some a => BStream a
  | None => BUndefined
  end.

(** JSON values, as far as the gateway builds them itself: [JRaw] is a
    value that [JSON.parse] or the archive reader produced. *)
Inductive Json :=
| JRaw (v : string)
| JString (s : string)
| JObject (fields : JFields)
with JFields :=
| JNil
| JField (key : string) (value : Json) (rest : JFields).

(** A row of the table [pmtiles_data]. *)
Record PMTilesD1Record := mkRecord {
  worldName : string;
  displayName : string;
  mapJson : string;
  layerKeys : string;
  lastUpdated : string
}.

(** The result of [tile_path]. *)
Record TilePath := mkTilePath {
  ok : bool;
  name : string;
  tile : option (Z * Z * Z);
  ext : string
}.

(** The functions the gateway imports or finds in its runtime.
    [tile_path] and [pmtiles_path] come from [shared/index], the JSON
    functions and the gzip stream from the JavaScript runtime. *)
Record Host := mkHost {
  tile_path : string -> TilePath;
  pmtiles_path : string -> option string -> string;
  JSON_parse : string -> option Json;
  JSON_stringify : Json -> string;
  gunzip : bytes -> Exn + bytes
}.

(** [Request], with the two parts of [new URL(request.url)] the handler
    reads. *)
Record Request := mkRequest {
  url : string;
  pathname : string;
  hostname : string;
  method : string;
  Origin : option string
}.

(** The world one request runs in: the configuration [Env] and what the
    collaborators answer.  [BUCKET] maps a key to the content that a plain
    [BUCKET.get(key)] reads, [BUCKET_onlyIf] is the answer to a ranged,
    conditional get.  The archive reader [PMTiles] is opaque; its three
    methods are given by the archive name the reader was built for. *)
Record World := mkWorld {
  ALLOWED_ORIGINS : option string;
  CACHE_CONTROL : option string;
  PMTILES_PATH : option string;
  PUBLIC_HOSTNAME : option string;
  BUCKET : gmap string bytes;
  BUCKET_onlyIf : string -> Z -> Z -> option string -> option R2Object;
  OCAP2_DATA : Exn + option (list PMTilesD1Record);
  caches_default : gmap string Response;
  getHeader : string -> Exn + Header;
  getTileJson : string -> string -> Exn + Json;
  getZxy : string -> Z -> Z -> Z -> Exn + option RangeResponse
}.

(** Calls to collaborators, in the order they are made. *)
Inductive Event :=
| EvD1All
| EvCacheMatch (u : string)
| EvCachePut (u : string) (r : Response)
| EvBucketGet (key : string)
| EvBucketGetRange (key : string) (offset length : Z) (etag : option string)
| EvGetHeader (archive : string)
| EvGetTileJson (archive : string) (base : string)
| EvGetZxy (archive : string) (z x y : Z).

(** ** The monad of a request *)

Record St := mkSt {
  cacheableHeaders : Headers.t;
  log : list Event
}.

Definition M (A : Type) : Type := St -> (Exn + A) * St.

Definition ret {A} (a : A) : M A := fun s => (inr a, s).

Definition throw {A} (e : Exn) : M A := fun s => (inl e, s).

Definition bind {A B} (m : M A) (k : A -> M B) : M B :=
  fun s =>
    match m s with
    | (inr a, s') => k a s'
    | (inl e, s') => (inl e, s')
    end.

Notation "x <- m ;; k" := (bind m (fun x => k))
  (at level 100, m at next level, right associativity).
Notation "m ;;; k" := (bind m (fun _ => k))
  (at level 100, right associativity).

(** [try { m } catch (e) { h e }]. *)
Definition try_catch {A} (m : M A) (h : Exn -> M A) : M A :=
  fun s =>
    match m s with
    | (inl e, s') => h e s'
    | r => r
    end.

(** The answer of a collaborator: a value or a rejected promise. *)
Definition await {A} (r : Exn + A) : M A :=
  match r with
  | inr a => ret a
  | inl e => throw e
  end.

Definition emit (e : Event) : M unit :=
  fun s => (inr tt, mkSt (cacheableHeaders s) (log s ++ [e])).

(** [cacheableHeaders.set(name, value)]. *)
Definition set_cacheable (name value : string) : M unit :=
  fun s => (inr tt, mkSt (Headers.set (cacheableHeaders s) name value) (log s)).

Definition get_cacheable : M Headers.t :=
  fun s => (inr (cacheableHeaders s), s).

Definition init : St := mkSt ∅ [].

Definition run {A} (m : M A) : (Exn + A) * St := m init.

(** ** The gateway *)

Section Gateway.

Variable host : Host.
Variable env : World.

(** [nativeDecompress]. *)
Definition nativeDecompress (buf : bytes) (compression : Compression)
  : Exn + bytes :=
  if bool_decide (compression = CNone) || bool_decide (compression = CUnknown)
  then inr buf
  else if bool_decide (compression = CGzip) then gunzip host buf
  else inl (Error "Compression method not supported").

(** [R2Source.getBytes], for the source of the archive [archiveName]. *)
Definition getBytes (archiveName : string) (offset length : Z)
    (etag : option string) : M RangeResponse :=
  let key := pmtiles_path host archiveName (PMTILES_PATH env) in
  emit (EvBucketGetRange key offset length etag) ;;;
  match BUCKET_onlyIf env key offset length etag with
  | None => throw (KeyNotFoundError "Archive not found")
  | Some o =>
      match o_body o with
      | None => throw EtagMismatch
      | Some a =>
          ret {| data := a;
                 etag := Some (o_etag o);
                 cacheControl := o_cacheControl o;
                 expires := o_cacheExpiry o |}
      end
  end.

(** [results[k] = v] on an object: a known key keeps its place. *)
Fixpoint assign (k : string) (v : Json) (o : JFields) : JFields :=
  match o with
  | JNil => JField k v JNil
  | JField k' v' rest =>
      if decide (k = k') then JField k v rest
      else JField k' v' (assign k v rest)
  end.

Definition parse (s : string) : M Json :=
  match JSON_parse host s with
  | Some j => ret j
  | None => throw (SyntaxError "Unexpected token in JSON")
  end.

(** The body of [data.results.forEach]. *)
Fixpoint forEach_record (records : list PMTilesD1Record) (results : JFields)
  : M JFields :=
  match records with
  | [] => ret results
  | record :: rest =>
      m <- parse (mapJson record) ;;
      l <- parse (layerKeys record) ;;
      forEach_record rest
        (assign (worldName record)
           (JObject
              (JField "worldName" (JString (worldName record))
              (JField "displayName" (JString (displayName record))
              (JField "mapJson" m
              (JField "layerKeys" l
              (JField "lastUpdated" (JString (lastUpdated record)) JNil))))))
           results)
  end.

(** [getAvailablePmTilesFromD1]. *)
Definition getAvailablePmTilesFromD1 : M Json :=
  emit EvD1All ;;;
  d <- await (OCAP2_DATA env) ;;
  match d with
  | None => ret (JObject JNil)
  | Some records =>
      results <- forEach_record records JNil ;;
      ret (JObject results)
  end.

(** The loop of [fetch] that picks [allowedOrigin]: the last entry of the
    list that is the request's origin or the wildcard. *)
Definition allowed_origin (request : Request) : string :=
  match ALLOWED_ORIGINS env with
  | None => ""
  | Some origins =>
      fold_left
        (fun allowedOrigin o =>
           if bool_decide (Some o = Origin request) || bool_decide (o = "*")
           then o else allowedOrigin)
        (Str.split "," origins) ""
  end.

(** [if (allowedOrigin) respHeaders.set(...); respHeaders.set("Vary", ...)]. *)
Definition with_cors (allowedOrigin : string) (h : Headers.t) : Headers.t :=
  let respHeaders :=
    if bool_decide (allowedOrigin = "") then h
    else Headers.set h "Access-Control-Allow-Origin" allowedOrigin in
  Headers.set respHeaders "Vary" "Origin".

(** The closure [cacheableResponse] of [fetch]; its second argument is
    always the one [cacheableHeaders] object, which is the state of [M]. *)
Definition cacheableResponse (request : Request) (allowedOrigin : string)
    (b : BodyInit) (st : Z) : M Response :=
  set_cacheable "Cache-Control"
    (Str.or_else (CACHE_CONTROL env) "public, max-age=86400") ;;;
  h <- get_cacheable ;;
  let cacheable := new_Response b h st in
  emit (EvCachePut (url request) cacheable) ;;;
  ret (new_Response b (with_cors allowedOrigin h) st).

(** The loop of [checkFonts]. *)
Fixpoint checkFonts_loop (cacheableResponse : BodyInit -> Z -> M Response)
    (fonts : list string) (glyphs : string) : M Response :=
  match fonts with
  | [] => ret (new_Response (BString "Font not found") ∅ 404)
  | font :: rest =>
      let newObjectKey := "fonts/" +:+ font +:+ "/" +:+ glyphs in
      emit (EvBucketGet newObjectKey) ;;;
      match BUCKET env !! newObjectKey with
      | None => checkFonts_loop cacheableResponse rest glyphs
      | Some a =>
          set_cacheable "Content-Type" "application/x-protobuf" ;;;
          cacheableResponse (BArrayBuffer a) 200
      end
  end.

(** [checkFonts]. *)
Definition checkFonts (objectKey : string)
    (cacheableResponse : BodyInit -> Z -> M Response) : M Response :=
  let newKey := Str.replace_pct20 objectKey in
  let parts := Str.split "/" newKey in
  match parts !! 1%nat with
  | None => throw (TypeError "Cannot read properties of undefined")
  | Some families =>
      checkFonts_loop cacheableResponse (Str.split "," families)
        (Str.interpolate (parts !! 2%nat))
  end.

(** The styles route of [fetch]. *)
Definition serve_style (objectKey : string)
    (cacheableResponse : BodyInit -> Z -> M Response) : M Response :=
  emit (EvBucketGet objectKey) ;;;
  match BUCKET env !! objectKey with
  | None => cacheableResponse (BString "File not found") 404
  | Some a =>
      let objectExtension := last (Str.split "." objectKey) in
      let contentType :=
        if bool_decide (objectExtension = Some "png") then "image/png"
        else if bool_decide (objectExtension = Some "json")
             then "application/json"
             else "application/octet-stream" in
      set_cacheable "Content-Type" contentType ;;;
      cacheableResponse (BArrayBuffer a) 200
  end.

(** The table of the extension check. *)
Definition extension_pairs : list (TileType * string) :=
  [(Mvt, "mvt"); (Png, "png"); (Jpeg, "jpg"); (Webp, "webp"); (Avif, "avif")].

(** The loop over the table: [Some] is its early [return]. *)
Fixpoint check_extension (cacheableResponse : BodyInit -> Z -> M Response)
    (pHeader : Header) (ext : string) (pairs : list (TileType * string))
  : M (option Response) :=
  match pairs with
  | [] => ret None
  | (pair0, pair1) :: rest =>
      if bool_decide (tileType pHeader = pair0)
         && negb (bool_decide (ext = pair1))
      then
        if bool_decide (tileType pHeader = Mvt) && bool_decide (ext = "pbf")
        then check_extension cacheableResponse pHeader ext rest
        else
          r <- cacheableResponse
                 (BString ("Bad request: requested ." +:+ ext
                           +:+ " but archive has type ." +:+ pair1)) 400 ;;
          ret (Some r)
      else check_extension cacheableResponse pHeader ext rest
  end.

(** The [switch] on the tile type. *)
Definition set_content_type (t : TileType) : M unit :=
  match t with
  | Mvt => set_cacheable "Content-Type" "application/x-protobuf"
  | Png => set_cacheable "Content-Type" "image/png"
  | Jpeg => set_cacheable "Content-Type" "image/jpeg"
  | Webp => set_cacheable "Content-Type" "image/webp"
  | _ => ret tt
  end.

(** The [try] block of [fetch] and its [catch]. *)
Definition serve_archive (request : Request) (tp : TilePath)
    (cacheableResponse : BodyInit -> Z -> M Response) : M Response :=
  try_catch
    (emit (EvGetHeader (name tp)) ;;;
     pHeader <- await (getHeader env (name tp)) ;;
     match tile tp with
     | None =>
         set_cacheable "Content-Type" "application/json" ;;;
         let base :=
           "https://" +:+ Str.or_else (PUBLIC_HOSTNAME env) (hostname request)
           +:+ "/" +:+ name tp in
         emit (EvGetTileJson (name tp) base) ;;;
         t <- await (getTileJson env (name tp) base) ;;
         cacheableResponse (BString (JSON_stringify host t)) 200
     | Some (z, x, y) =>
         if (z <? minZoom pHeader) || (z >? maxZoom pHeader)
         then cacheableResponse BUndefined 404
         else
           early <- check_extension cacheableResponse pHeader (ext tp)
                      extension_pairs ;;
           match early with
           | Some r => ret r
           | None =>
               emit (EvGetZxy (name tp) z x y) ;;;
               tiledata <- await (getZxy env (name tp) z x y) ;;
               set_content_type (tileType pHeader) ;;;
               match tiledata with
               | Some td => cacheableResponse (BArrayBuffer (data td)) 200
               | None => cacheableResponse BUndefined 204
               end
           end
     end)
    (fun e =>
       match e with
       | KeyNotFoundError _ =>
           cacheableResponse (BString "Archive not found") 404
       | _ => throw e
       end).

(** [url.pathname.match(/^\/list\/?$/) !== null]. *)
Definition is_list_path (p : string) : bool :=
  bool_decide (p = "/list") || bool_decide (p = "/list/").

(** [["GET", "HEAD", "OPTIONS"].includes(request.method)]. *)
Definition is_read_method (m : string) : bool :=
  bool_decide (m ∈ ["GET"; "HEAD"; "OPTIONS"]).

(** The listing response of [fetch]. *)
Definition listing_headers : Headers.t :=
  Headers.set
    (Headers.set
       (Headers.set ∅ "Content-Type" "application/json")
       "Access-Control-Allow-Origin" "*")
    "Cache-Control" "public, max-age=86400".

(** The routes of [fetch] after a miss in the edge cache. *)
Definition dispatch (request : Request) (tp : TilePath)
    (cacheableResponse : BodyInit -> Z -> M Response) : M Response :=
  if is_read_method (method request)
     && Str.startsWith (pathname request) "/fonts"
  then checkFonts (Str.substring1 (pathname request)) cacheableResponse
  else if is_read_method (method request)
          && Str.startsWith (pathname request) "/styles"
  then serve_style (Str.substring1 (pathname request)) cacheableResponse
  else if negb (ok tp)
  then ret (new_Response (BString "Invalid URL") ∅ 404)
  else serve_archive request tp cacheableResponse.

(** [fetch]. *)
Definition fetch (request : Request) : M Response :=
  if is_list_path (pathname request) then
    pmtiles <- getAvailablePmTilesFromD1 ;;
    ret (new_Response (BString (JSON_stringify host pmtiles))
           listing_headers 200)
  else if bool_decide (Str.toUpperCase (method request) = "POST") then
    ret (new_Response BUndefined ∅ 405)
  else
    let tp := tile_path host (pathname request) in
    let allowedOrigin := allowed_origin request in
    emit (EvCacheMatch (url request)) ;;;
    match caches_default env !! url request with
    | Some cached =>
        ret (new_Response (body_stream cached)
               (with_cors allowedOrigin (headers cached)) (status cached))
    | None =>
        dispatch request tp (cacheableResponse request allowedOrigin)
    end.

End Gateway.

(** ** A concrete deployment, for the examples *)

Module Demo.

Definition digit (c : ascii) : option Z :=
  let n := N_of_ascii c in
  if ((48 <=? n) && (n <=? 57))%N then Some (Z.of_N (n - 48)) else None.

Fixpoint number_from (acc : Z) (s : string) : option Z :=
  match s with
  | EmptyString => Some acc
  | String c r =>
      match digit c with
      | Some d => number_from (10 * acc + d) r
      | None => None
      end
  end.

Definition number (s : string) : option Z :=
  if decide (s = "") then None else number_from 0 s.

Definition no_path : TilePath := mkTilePath false "" None "".

(** Modelled from the spec: [tile_path] lives in [shared/index]; the spec
    gives the shapes [/<archive>/<z>/<x>/<y>.<ext>] of a tile request and of
    a bare metadata request, and says that other paths do not parse. *)
Definition parse_path (p : string) : TilePath :=
  match Str.split "/" p with
  | [e; archive; z; x; leaf] =>
      match Str.split "." leaf with
      | [y; extension] =>
          match number z, number x, number y with
          | Some z', Some x', Some y' =>
              if decide (e = "")
              then mkTilePath true archive (Some (z', x', y')) extension
              else no_path
          | _, _, _ => no_path
          end
      | _ => no_path
      end
  | [e; leaf] =>
      match Str.split "." leaf with
      | [archive; extension] =>
          if bool_decide (e = "") && bool_decide (extension = "json")
          then mkTilePath true archive None "json"
          else no_path
      | _ => no_path
      end
  | _ => no_path
  end.

Definition host : Host :=
  {| tile_path := parse_path;
     pmtiles_path := fun archive setting =>
       match setting with
       | Some _ => archive
       | None => archive +:+ ".pmtiles"
       end;
     JSON_parse := fun s => Some (JRaw s);
     JSON_stringify := fun j =>
       match j with
       | JRaw v => v
       | JString s => s
       | JObject JNil => "{}"
       | JObject _ => "{...}"
       end;
     gunzip := fun b => inl (TypeError "not a gzip stream") |}.

Definition glyphs : bytes := [Byte.x0a; Byte.x02].
Definition tile_bytes : bytes := [Byte.x1a; Byte.x05].

(** An archive [myarchive] of type [t] with zoom levels 0 to 10, whose
    tiles are [zxy], a font [B] without a font [A], and a given content of
    the edge cache. *)
Definition world (t : TileType) (zxy : option RangeResponse)
    (cache : gmap string Response) : World :=
  {| ALLOWED_ORIGINS := Some "https://maps.example.com";
     CACHE_CONTROL := None;
     PMTILES_PATH := None;
     PUBLIC_HOSTNAME := None;
     BUCKET := {[ "fonts/B/0-255.pbf" := glyphs ]};
     BUCKET_onlyIf := fun key _ _ tag =>
       if decide (key = "myarchive.pmtiles")
       then Some (mkR2Object
                    (if decide (tag = Some "stale") then None
                     else Some tile_bytes)
                    "fresh" None None)
       else None;
     OCAP2_DATA := inr (Some []);
     caches_default := cache;
     getHeader := fun archive =>
       if decide (archive = "myarchive") then inr (mkHeader 0 10 t)
       else inl (KeyNotFoundError "Archive not found");
     getTileJson := fun _ _ => inr (JRaw "{}");
     getZxy := fun _ _ _ _ => inr zxy |}.

Definition tile_response : RangeResponse :=
  mkRangeResponse tile_bytes (Some "fresh") None None.

Definition get (path : string) : Request :=
  {| url := "https://tiles.example.com" +:+ path;
     pathname := path;
     hostname := "tiles.example.com";
     method := "GET";
     Origin := Some "https://maps.example.com" |}.

Definition with_method (m : string) (r : Request) : Request :=
  {| url := url r; pathname := pathname r; hostname := hostname r;
     method := m; Origin := Origin r |}.

Definition mvt_world : World := world Mvt (Some tile_response) ∅.
Definition unknown_world : World := world Unknown (Some tile_response) ∅.
Definition avif_world : World := world Avif (Some tile_response) ∅.

(** The archive has no tile at any coordinate. *)
Definition sparse_world : World := world Mvt None ∅.

Definition cached_response : Response :=
  mkResponse 200 {[ "content-type" := "text/plain" ]} (Some glyphs).

(** The edge cache already holds the URL of [path]. *)
Definition warm_world (path : string) : World :=
  world Mvt (Some tile_response) {[ url (get path) := cached_response ]}.

(** The copy of a vector tile that goes to the edge cache. *)
Definition stored_tile : Response :=
  mkResponse 200
    (Headers.set
       (Headers.set ∅ "Content-Type" "application/x-protobuf")
       "Cache-Control" "public, max-age=86400")
    (Some tile_bytes).

(** What [tile_path] makes of [/myarchive/<z>/3/2.<e>]. *)
Definition parsed (z : Z) (e : string) : TilePath :=
  mkTilePath true "myarchive" (Some (z, 3, 2)) e.

(** A runtime whose [JSON.parse] accepts objects only. *)
Definition strict_host : Host :=
  {| tile_path := parse_path;
     pmtiles_path := pmtiles_path host;
     JSON_parse := fun s =>
       if Str.startsWith s "{" then Some (JRaw s) else None;
     JSON_stringify := JSON_stringify host;
     gunzip := gunzip host |}.

(** A deployment like [mvt_world] with a store, rows of the metadata
    table and a reader of its own. *)
Definition variant (bucket : gmap string bytes)
    (rows : Exn + option (list PMTilesD1Record))
    (header : string -> Exn + Header)
    (tilejson : string -> string -> Exn + Json)
    (cache : gmap string Response) : World :=
  {| ALLOWED_ORIGINS := ALLOWED_ORIGINS mvt_world;
     CACHE_CONTROL := CACHE_CONTROL mvt_world;
     PMTILES_PATH := PMTILES_PATH mvt_world;
     PUBLIC_HOSTNAME := PUBLIC_HOSTNAME mvt_world;
     BUCKET := bucket;
     BUCKET_onlyIf := BUCKET_onlyIf mvt_world;
     OCAP2_DATA := rows;
     caches_default := cache;
     getHeader := header;
     getTileJson := tilejson;
     getZxy := getZxy mvt_world |}.

Definition altis : PMTilesD1Record :=
  mkRecord "altis" "Altis" "{}" "{}" "2024-01-01".
Definition broken : PMTilesD1Record :=
  mkRecord "tanoa" "Tanoa" "{}" "oops" "2024-03-01".

(** The metadata table holds [rows]. *)
Definition listing_world (rows : list PMTilesD1Record) : World :=
  variant (BUCKET mvt_world) (inr (Some rows)) (getHeader mvt_world)
    (getTileJson mvt_world) ∅.

(** The store holds a sprite sheet. *)
Definition style_world : World :=
  variant {[ "styles/sprite.png" := glyphs ]} (OCAP2_DATA mvt_world)
    (getHeader mvt_world) (getTileJson mvt_world) ∅.

(** The archive is gone by the time the tile JSON is asked for. *)
Definition vanishing_world : World :=
  variant (BUCKET mvt_world) (OCAP2_DATA mvt_world) (getHeader mvt_world)
    (fun _ _ => inl (KeyNotFoundError "Archive not found")) ∅.

(** The reader fails for a reason of its own. *)
Definition failing_world : World :=
  variant (BUCKET mvt_world) (OCAP2_DATA mvt_world)
    (fun _ => inl (Error "Wrong magic number for PMTiles archive"))
    (getTileJson mvt_world) ∅.

(** The edge cache holds the copy of the vector tile. *)
Definition tile_cached_world : World :=
  world Mvt (Some tile_response)
    {[ url (get "/myarchive/5/3/2.mvt") := stored_tile ]}.

(** The same request from another site. *)
Definition from_elsewhere (r : Request) : Request :=
  {| url := url r; pathname := pathname r; hostname := hostname r;
     method := method r; Origin := Some "https://elsewhere.example" |}.

End Demo.

(** ** Notions the statements use *)

(** The request is one for a tile: it is neither the listing nor a [POST],
    the edge cache does not hold its URL, it is not taken by the font or
    the style route, its path parses to the tile [(z, x, y)] of an archive,
    and the reader has the header [pHeader] of that archive. *)
Definition tile_request (host : Host) (env : World) (request : Request)
    (tp : TilePath) (z x y : Z) (pHeader : Header) : Prop :=
  is_list_path (pathname request) = false /\
  Str.toUpperCase (method request) <> "POST" /\
  caches_default env !! url request = None /\
  is_read_method (method request)
    && Str.startsWith (pathname request) "/fonts" = false /\
  is_read_method (method request)
    && Str.startsWith (pathname request) "/styles" = false /\
  tile_path host (pathname request) = tp /\
  ok tp = true /\
  tile tp = Some (z, x, y) /\
  getHeader env (name tp) = inr pHeader.

(** [getZxy] was called. *)
Definition is_getZxy (e : Event) : bool :=
  match e with
  | EvGetZxy _ _ _ _ => true
  | _ => false
  end.

Definition calls_getZxy (l : list Event) : bool := existsb is_getZxy l.

(** What was handed to [cache.put]. *)
Definition cache_puts (l : list Event) : list (string * Response) :=
  omap (fun e => match e with EvCachePut u r => Some (u, r) | _ => None end) l.

(** The canonical extension of a tile type, read off the table. *)
Definition canonical_extension (t : TileType) : option string :=
  snd <$> find (fun p => bool_decide (p.1 = t)) extension_pairs.

(** The acceptance condition of the specification. *)
Definition extension_accepted (t : TileType) (e : string) : Prop :=
  canonical_extension t = Some e \/ (t = Mvt /\ e = "pbf").

(** The response and the log of a run. *)
Definition response_of {A} (r : (Exn + A) * St) : option A :=
  match r.1 with
  | inr a => Some a
  | inl _ => None
  end.

Definition log_of {A} (r : (Exn + A) * St) : list Event := log r.2.

(** The decision of the loop over the table, as a boolean: a type without
    an entry in the table passes with every extension. *)
Definition passes_extension_check (t : TileType) (e : string) : bool :=
  match canonical_extension t with
  | None => true
  | Some c =>
      bool_decide (e = c) || (bool_decide (t = Mvt) && bool_decide (e = "pbf"))
  end.

(** The body of the response to a mismatch. *)
Definition mismatch_message (e c : string) : string :=
  "Bad request: requested ." +:+ e +:+ " but archive has type ." +:+ c.

(** The state in which the tile route builds its response: the log of the
    three calls made so far and the headers after the [switch]. *)
Definition served_state (tp : TilePath) (request : Request) (z x y : Z)
    (t : TileType) : St :=
  (set_content_type t
     (mkSt ∅ [EvCacheMatch (url request); EvGetHeader (name tp);
              EvGetZxy (name tp) z x y])).2.

(** The key a font family is probed under. *)
Definition font_key (glyphs font : string) : string :=
  "fonts/" +:+ font +:+ "/" +:+ glyphs.

(** The keys read with a plain [BUCKET.get], in order. *)
Definition bucket_gets (l : list Event) : list string :=
  omap (fun e => match e with EvBucketGet k => Some k | _ => None end) l.

(** The family list and the glyph range of a font request. *)
Definition font_request (objectKey : string) : option (list string * string) :=
  let parts := Str.split "/" (Str.replace_pct20 objectKey) in
  match parts !! 1%nat, parts !! 2%nat with
  | Some families, Some glyphs => Some (Str.split "," families, glyphs)
  | _, _ => None
  end.

(** A computation only adds to the log. *)
Definition extends {A} (m : M A) : Prop :=
  forall s, exists l, log (m s).2 = log s ++ l.

(** What [fetch] answers with a cached response. *)
Definition serve_cached (env : World) (request : Request) (cached : Response)
  : Response :=
  new_Response (body_stream cached)
    (with_cors (allowed_origin env request) (headers cached)) (status cached).

(** A computation keeps a property of the state, also when it throws. *)
Definition preserves {A} (P : St -> Prop) (m : M A) : Prop :=
  forall s, P s -> P (m s).2.

(** The headers carry nothing of CORS. *)
Definition no_cors (h : Headers.t) : Prop :=
  Headers.get h "Access-Control-Allow-Origin" = None /\
  Headers.get h "Vary" = None.

(** Nothing was handed to the edge cache yet, and the headers that would
    be stored carry nothing of CORS. *)
Definition nothing_stored (s : St) : Prop :=
  no_cors (cacheableHeaders s) /\ cache_puts (log s) = [].

(** The run ended in [cacheableResponse]: one response was handed to the
    edge cache under the request URL, built from headers [h] without CORS,
    and the client got the same body and status with [with_cors h]. *)
Definition served_through_cache (env : World) (request : Request)
    (r : (Exn + Response) * St) : Prop :=
  exists b st h,
    no_cors h /\
    r.1 = inr (new_Response b (with_cors (allowed_origin env request) h) st) /\
    cache_puts (log r.2) = [(url request, new_Response b h st)].

(** How a route can end. *)
Definition settled (env : World) (request : Request)
    (r : (Exn + Response) * St) : Prop :=
  nothing_stored r.2 \/ served_through_cache env request r.

Definition final (env : World) (request : Request) (m : M Response) : Prop :=
  forall s, nothing_stored s -> settled env request (m s).

(** An event that is not a write to the edge cache. *)
Definition is_put (e : Event) : bool :=
  match e with
  | EvCachePut _ _ => true
  | _ => false
  end.

(** [getZxy] was not called so far. *)
Definition no_getZxy (s : St) : Prop := calls_getZxy (log s) = false.

(** The status, the content type and the body, read as text, of the
    response of a run. *)
Definition summary (r : (Exn + Response) * St)
  : option (Z * option string * option string) :=
  match r.1 with
  | inr resp =>
      Some (status resp, Headers.get (headers resp) "Content-Type",
            string_of_list_byte <$> body resp)
  | inl _ => None
  end.

(** *** Notions for the routes beside the tile check *)

(** The character occurs in the string. *)
Fixpoint occurs (c : ascii) (s : string) : bool :=
  match s with
  | EmptyString => false
  | String a r => bool_decide (a = c) || occurs c r
  end.



(** The entry the listing builds for a row, when both JSON columns of the
    row parse. *)
Definition listing_entry (host : Host) (record : PMTilesD1Record)
  : option Json :=
  match JSON_parse host (mapJson record),
        JSON_parse host (layerKeys record) with
  | Some m, Some l =>
      Some (JObject
              (JField "worldName" (JString (worldName record))
              (JField "displayName" (JString (displayName record))
              (JField "mapJson" m
              (JField "layerKeys" l
              (JField "lastUpdated" (JString (lastUpdated record)) JNil))))))
  | _, _ => None
  end.

(** The test of the loop that picks the allowed origin. *)
Definition origin_matches (request : Request) (o : string) : bool :=
  bool_decide (Some o = Origin request) || bool_decide (o = "*").

(** The cache lifetime of a deployment. *)
Definition cache_lifetime (env : World) : string :=
  Str.or_else (CACHE_CONTROL env) "public, max-age=86400".

(** The header is one of the two that [with_cors] writes. *)
Definition is_cors_header (n : string) : bool :=
  bool_decide (Str.toLowerCase n = "access-control-allow-origin")
  || bool_decide (Str.toLowerCase n = "vary").

(** The run went through [cacheableResponse], called in a state in which
    nothing was stored. *)
Definition through_cacheableResponse (env : World) (request : Request)
    (r : (Exn + Response) * St) : Prop :=
  exists b st s,
    nothing_stored s /\
    r = cacheableResponse env request (allowed_origin env request) b st s.

(** How a run can end: without a write to the edge cache, or through
    [cacheableResponse]. *)
Definition outcome (env : World) (request : Request)
    (r : (Exn + Response) * St) : Prop :=
  nothing_stored r.2 \/ through_cacheableResponse env request r.

Definition ends (env : World) (request : Request) (m : M Response) : Prop :=
  forall s, nothing_stored s -> outcome env request (m s).

(** The request goes to the archive reader: it is neither the listing nor a
    [POST], the edge cache does not hold its URL, it is not taken by the
    font or the style route, and its path parses. *)
Definition archive_request (host : Host) (env : World) (request : Request)
    (tp : TilePath) : Prop :=
  is_list_path (pathname request) = false /\
  Str.toUpperCase (method request) <> "POST" /\
  caches_default env !! url request = None /\
  is_read_method (method request)
    && Str.startsWith (pathname request) "/fonts" = false /\
  is_read_method (method request)
    && Str.startsWith (pathname request) "/styles" = false /\
  tile_path host (pathname request) = tp /\
  ok tp = true.

(** The request goes to the style route. *)
Definition style_request (env : World) (request : Request) : Prop :=
  is_list_path (pathname request) = false /\
  caches_default env !! url request = None /\
  is_read_method (method request) = true /\
  Str.startsWith (pathname request) "/fonts" = false /\
  Str.startsWith (pathname request) "/styles" = true.

(** The request goes to the font route. *)
Definition font_route_request (env : World) (request : Request) : Prop :=
  is_list_path (pathname request) = false /\
  caches_default env !! url request = None /\
  is_read_method (method request) = true /\
  Str.startsWith (pathname request) "/fonts" = true.

(** The base URL handed to [getTileJson]. *)
Definition tilejson_base (env : World) (request : Request) (tp : TilePath)
  : string :=
  "https://" +:+ Str.or_else (PUBLIC_HOSTNAME env) (hostname request)
  +:+ "/" +:+ name tp.

(** A run that raised without a write to the edge cache, or that went
    through [cacheableResponse]. *)
Definition raised_or_cached (env : World) (request : Request)
    (r : (Exn + Response) * St) : Prop :=
  (exists e, r.1 = inl e /\ nothing_stored r.2) \/
  through_cacheableResponse env request r.

Definition always_caches (env : World) (request : Request) (m : M Response)
  : Prop :=
  forall s, nothing_stored s -> raised_or_cached env request (m s).

(** ** Basic facts *)

Lemma status_new_Response b h st : status (new_Response b h st) = st.
Proof. by destruct b. Qed.

Lemma cacheableResponse_run env request allowedOrigin b st s :
  cacheableResponse env request allowedOrigin b st s =
  let h := Headers.set (cacheableHeaders s) "Cache-Control"
             (Str.or_else (CACHE_CONTROL env) "public, max-age=86400") in
  (inr (new_Response b (with_cors allowedOrigin h) st),
   mkSt h (log s ++ [EvCachePut (url request) (new_Response b h st)])).
Proof. done. Qed.

(** A tile request runs the [try] block of [fetch]. *)
Lemma fetch_tile_request host env request tp z x y pHeader :
  tile_request host env request tp z x y pHeader ->
  run (fetch host env request) =
  serve_archive host env request tp
    (cacheableResponse env request (allowed_origin env request))
    (mkSt ∅ [EvCacheMatch (url request)]).
Proof.
  intros (Hl & Hp & Hc & Hf & Hs & Htp & Hok & _).
  unfold run, fetch. rewrite Hl.
  rewrite bool_decide_eq_false_2 by done.
  unfold bind at 1. cbn [emit init log cacheableHeaders app].
  unfold dispatch. rewrite Hc, Hf, Hs, Htp, Hok. done.
Qed.

(** The table, type by type. *)
Lemma canonical_extension_table t :
  canonical_extension t =
  match t with
  | Mvt => Some "mvt"
  | Png => Some "png"
  | Jpeg => Some "jpg"
  | Webp => Some "webp"
  | Avif => Some "avif"
  | Unknown => None
  end.
Proof. by destruct t. Qed.

(** The loop over the table returns early exactly when the check fails, and
    then with the response for the canonical extension of the type. *)
Lemma check_extension_table cr pHeader e s :
  check_extension cr pHeader e extension_pairs s =
  if passes_extension_check (tileType pHeader) e then (inr None, s)
  else
    match canonical_extension (tileType pHeader) with
    | Some c => bind (cr (BString (mismatch_message e c)) 400)
                  (fun r => ret (Some r)) s
    | None => (inr None, s)
    end.
Proof.
  unfold passes_extension_check, mismatch_message.
  destruct pHeader as [lo hi t]; destruct t; cbn;
    repeat (case_bool_decide; cbn; try done; try congruence).
Qed.

Lemma passes_extension_check_iff t e :
  t <> Unknown ->
  passes_extension_check t e = true <-> extension_accepted t e.
Proof.
  intros Ht. unfold passes_extension_check, extension_accepted.
  rewrite canonical_extension_table.
  destruct t; try done;
    rewrite orb_true_iff, andb_true_iff, !bool_decide_eq_true;
    intuition congruence.
Qed.

(** A tile request within the zoom bounds whose extension passes the check
    reaches [getZxy]. *)
Lemma fetch_accepted host env request tp z x y pHeader :
  tile_request host env request tp z x y pHeader ->
  minZoom pHeader <= z <= maxZoom pHeader ->
  passes_extension_check (tileType pHeader) (ext tp) = true ->
  run (fetch host env request) =
  try_catch
    (tiledata <- await (getZxy env (name tp) z x y) ;;
     set_content_type (tileType pHeader) ;;;
     match tiledata with
     | Some td =>
         cacheableResponse env request (allowed_origin env request)
           (BArrayBuffer (data td)) 200
     | None =>
         cacheableResponse env request (allowed_origin env request)
           BUndefined 204
     end)
    (fun e =>
       match e with
       | KeyNotFoundError _ =>
           cacheableResponse env request (allowed_origin env request)
             (BString "Archive not found") 404
       | _ => throw e
       end)
    (mkSt ∅ [EvCacheMatch (url request); EvGetHeader (name tp);
             EvGetZxy (name tp) z x y]).
Proof.
  intros Hreq Hz Hpass. rewrite (fetch_tile_request _ _ _ _ _ _ _ _ Hreq).
  destruct Hreq as (_ & _ & _ & _ & _ & _ & _ & Ht & Hh).
  unfold serve_archive, try_catch.
  unfold bind at 1. cbn [emit log cacheableHeaders app].
  unfold bind at 1. rewrite Hh. cbn [await ret]. rewrite Ht.
  replace ((z <? minZoom pHeader) || (z >? maxZoom pHeader)) with false
    by (symmetry; apply orb_false_iff; lia).
  unfold bind at 1. rewrite check_extension_table, Hpass.
  unfold bind at 1. cbn [emit log cacheableHeaders app]. done.
Qed.

(** A tile request outside the zoom bounds goes from the header straight
    to the response. *)
Lemma fetch_out_of_range host env request tp z x y pHeader :
  tile_request host env request tp z x y pHeader ->
  z < minZoom pHeader \/ z > maxZoom pHeader ->
  run (fetch host env request) =
  cacheableResponse env request (allowed_origin env request) BUndefined 404
    (mkSt ∅ [EvCacheMatch (url request); EvGetHeader (name tp)]).
Proof.
  intros Hreq Hz. rewrite (fetch_tile_request _ _ _ _ _ _ _ _ Hreq).
  destruct Hreq as (_ & _ & _ & _ & _ & _ & _ & Ht & Hh).
  unfold serve_archive, try_catch.
  unfold bind at 1. cbn [emit log cacheableHeaders app].
  unfold bind at 1. rewrite Hh. cbn [await ret]. rewrite Ht.
  replace ((z <? minZoom pHeader) || (z >? maxZoom pHeader)) with true
    by (symmetry; apply orb_true_iff; lia).
  by rewrite cacheableResponse_run.
Qed.

Lemma served_state_log tp request z x y t :
  log (served_state tp request z x y t) =
  [EvCacheMatch (url request); EvGetHeader (name tp);
   EvGetZxy (name tp) z x y].
Proof. by destruct t. Qed.

(** What an accepted tile request is answered with, once [getZxy] has
    answered. *)
Lemma fetch_served host env request tp z x y pHeader tiledata :
  tile_request host env request tp z x y pHeader ->
  minZoom pHeader <= z <= maxZoom pHeader ->
  passes_extension_check (tileType pHeader) (ext tp) = true ->
  getZxy env (name tp) z x y = inr tiledata ->
  run (fetch host env request) =
  match tiledata with
  | Some td =>
      cacheableResponse env request (allowed_origin env request)
        (BArrayBuffer (data td)) 200
        (served_state tp request z x y (tileType pHeader))
  | None =>
      cacheableResponse env request (allowed_origin env request)
        BUndefined 204 (served_state tp request z x y (tileType pHeader))
  end.
Proof.
  intros Hreq Hz Hpass Hzxy.
  rewrite (fetch_accepted _ _ _ _ _ _ _ _ Hreq Hz Hpass).
  unfold try_catch, bind, served_state. rewrite Hzxy.
  by destruct (tileType pHeader), tiledata.
Qed.

(** A tile request within bounds whose extension fails the check is
    answered with the mismatch response, and [getZxy] is not reached. *)
Lemma fetch_mismatch host env request tp z x y pHeader c :
  tile_request host env request tp z x y pHeader ->
  minZoom pHeader <= z <= maxZoom pHeader ->
  passes_extension_check (tileType pHeader) (ext tp) = false ->
  canonical_extension (tileType pHeader) = Some c ->
  run (fetch host env request) =
  cacheableResponse env request (allowed_origin env request)
    (BString (mismatch_message (ext tp) c)) 400
    (mkSt ∅ [EvCacheMatch (url request); EvGetHeader (name tp)]).
Proof.
  intros Hreq Hz Hpass Hc. rewrite (fetch_tile_request _ _ _ _ _ _ _ _ Hreq).
  destruct Hreq as (_ & _ & _ & _ & _ & _ & _ & Ht & Hh).
  unfold serve_archive, try_catch.
  unfold bind at 1. cbn [emit log cacheableHeaders app].
  unfold bind at 1. rewrite Hh. cbn [await ret]. rewrite Ht.
  replace ((z <? minZoom pHeader) || (z >? maxZoom pHeader)) with false
    by (symmetry; apply orb_false_iff; lia).
  unfold bind at 1. rewrite check_extension_table, Hpass, Hc.
  by rewrite cacheableResponse_run.
Qed.

(** Once the extension check has passed, [getZxy] is called, whatever it
    answers. *)
Lemma fetch_accepted_calls host env request tp z x y pHeader :
  tile_request host env request tp z x y pHeader ->
  minZoom pHeader <= z <= maxZoom pHeader ->
  passes_extension_check (tileType pHeader) (ext tp) = true ->
  calls_getZxy (log_of (run (fetch host env request))) = true.
Proof.
  intros Hreq Hz Hpass.
  rewrite (fetch_accepted _ _ _ _ _ _ _ _ Hreq Hz Hpass).
  unfold try_catch, bind.
  destruct (getZxy env (name tp) z x y) as [e | tiledata]; cbn.
  - by destruct e.
  - by destruct (tileType pHeader), tiledata.
Qed.

(** Reading a header that [with_cors] does not write. *)
Lemma get_with_cors_other allowedOrigin h n :
  Str.toLowerCase n <> "access-control-allow-origin" ->
  Str.toLowerCase n <> "vary" ->
  Headers.get (with_cors allowedOrigin h) n = Headers.get h n.
Proof.
  intros Ha Hv. unfold with_cors, Headers.get, Headers.set.
  rewrite lookup_insert_ne by (intros E; apply Hv; by rewrite <- E).
  case_bool_decide; [done |].
  by rewrite lookup_insert_ne by (intros E; apply Ha; by rewrite <- E).
Qed.

(** The [Content-Type] the tile route has set when it builds its response. *)
Lemma served_state_content_type tp request z x y t :
  Headers.get (cacheableHeaders (served_state tp request z x y t))
    "Content-Type" =
  match t with
  | Mvt => Some "application/x-protobuf"
  | Png => Some "image/png"
  | Jpeg => Some "image/jpeg"
  | Webp => Some "image/webp"
  | Avif | Unknown => None
  end.
Proof. by destruct t. Qed.

(** The loop of [checkFonts] stops at the first family whose object exists:
    it has probed the families up to that one, in order, and builds its
    response from that object; with no such family it has probed them all. *)
Lemma checkFonts_loop_first_hit env cr fonts glyphs s :
  checkFonts_loop env cr fonts glyphs s =
  match list_find (fun f => is_Some (BUCKET env !! font_key glyphs f)) fonts with
  | Some (i, f) =>
      (set_cacheable "Content-Type" "application/x-protobuf" ;;;
       cr (BArrayBuffer (default [] (BUCKET env !! font_key glyphs f))) 200)
        (mkSt (cacheableHeaders s)
           (log s ++ ((EvBucketGet ∘ font_key glyphs) <$> take (S i) fonts)))
  | None =>
      (inr (new_Response (BString "Font not found") ∅ 404),
       mkSt (cacheableHeaders s)
         (log s ++ ((EvBucketGet ∘ font_key glyphs) <$> fonts)))
  end.
Proof.
  revert s. induction fonts as [| f fonts IH]; intros s.
  - cbn. rewrite app_nil_r. by destruct s.
  - cbn [checkFonts_loop list_find]. unfold bind at 1. cbn [emit].
    fold (font_key glyphs f).
    destruct (decide (is_Some (BUCKET env !! font_key glyphs f))) as [[a Ha] | Hn].
    + rewrite Ha. cbn. by rewrite take_0.
    + apply eq_None_not_Some in Hn. rewrite Hn, IH. cbn.
      destruct (list_find _ fonts) as [[i g] |]; cbn;
        by rewrite <- app_assoc.
Qed.

Lemma bucket_gets_probes glyphs fonts :
  bucket_gets ((EvBucketGet ∘ font_key glyphs) <$> fonts)
  = font_key glyphs <$> fonts.
Proof. induction fonts as [| f fonts IH]; [done |]. cbn. by rewrite <- IH. Qed.

Lemma bucket_gets_app l1 l2 :
  bucket_gets (l1 ++ l2) = bucket_gets l1 ++ bucket_gets l2.
Proof. apply omap_app. Qed.

(** *** Computations only add to the log *)

Lemma extends_ret {A} (a : A) : extends (ret a).
Proof. intros s. exists []. cbn. by rewrite app_nil_r. Qed.

Lemma extends_throw {A} e : extends (@throw A e).
Proof. intros s. exists []. cbn. by rewrite app_nil_r. Qed.

Lemma extends_await {A} (r : Exn + A) : extends (await r).
Proof. destruct r; [apply extends_throw | apply extends_ret]. Qed.

Lemma extends_emit e : extends (emit e).
Proof. intros s. by exists [e]. Qed.

Lemma extends_set_cacheable n v : extends (set_cacheable n v).
Proof. intros s. exists []. cbn. by rewrite app_nil_r. Qed.

Lemma extends_bind {A B} (m : M A) (k : A -> M B) :
  extends m -> (forall a, extends (k a)) -> extends (bind m k).
Proof.
  intros Hm Hk s. unfold bind. destruct (Hm s) as [l Hl].
  destruct (m s) as [[e | a] s']; cbn in *; [by exists l |].
  destruct (Hk a s') as [l' Hl']. exists (l ++ l').
  by rewrite Hl', Hl, app_assoc.
Qed.

Lemma extends_try_catch {A} (m : M A) (h : Exn -> M A) :
  extends m -> (forall e, extends (h e)) -> extends (try_catch m h).
Proof.
  intros Hm Hh s. unfold try_catch. destruct (Hm s) as [l Hl].
  destruct (m s) as [[e | a] s']; cbn in *; [| by exists l].
  destruct (Hh e s') as [l' Hl']. exists (l ++ l').
  by rewrite Hl', Hl, app_assoc.
Qed.

Lemma extends_cacheableResponse env request allowedOrigin b st :
  extends (cacheableResponse env request allowedOrigin b st).
Proof. intros s. rewrite cacheableResponse_run. by eexists. Qed.

Create HintDb logs.
#[local] Hint Resolve
  extends_ret extends_throw extends_await extends_emit extends_set_cacheable
  extends_cacheableResponse : logs.

(** One step through the structure of a handler. *)
Ltac extends_step :=
  first
    [ progress auto with logs
    | apply extends_bind; [| intros ?]
    | apply extends_try_catch; [| intros ?]
    | case_match ].

Lemma extends_checkFonts_loop env cr fonts glyphs :
  (forall b st, extends (cr b st)) ->
  extends (checkFonts_loop env cr fonts glyphs).
Proof.
  intros Hcr. induction fonts as [| f fonts IH]; cbn.
  - apply extends_ret.
  - repeat extends_step.
Qed.

Lemma extends_check_extension cr pHeader e pairs :
  (forall b st, extends (cr b st)) ->
  extends (check_extension cr pHeader e pairs).
Proof.
  intros Hcr. induction pairs as [| [t c] pairs IH]; cbn.
  - apply extends_ret.
  - repeat extends_step.
Qed.

Lemma extends_serve_archive host env request tp cr :
  (forall b st, extends (cr b st)) ->
  extends (serve_archive host env request tp cr).
Proof.
  intros Hcr. pose proof (extends_check_extension cr) as Hce.
  unfold serve_archive, set_content_type. repeat extends_step.
Qed.

Lemma extends_dispatch host env request tp cr :
  (forall b st, extends (cr b st)) ->
  extends (dispatch host env request tp cr).
Proof.
  intros Hcr. pose proof (extends_checkFonts_loop env cr) as Hfonts.
  pose proof (extends_serve_archive host env request tp cr Hcr) as Harch.
  unfold dispatch, checkFonts, serve_style. repeat extends_step.
Qed.

(** Past the listing and the method check, [fetch] looks the URL up in the
    edge cache and answers from the cache or goes on to the routes. *)
Lemma fetch_past_method_check host env request :
  is_list_path (pathname request) = false ->
  Str.toUpperCase (method request) <> "POST" ->
  run (fetch host env request) =
  match caches_default env !! url request with
  | Some cached =>
      (inr (serve_cached env request cached),
       mkSt ∅ [EvCacheMatch (url request)])
  | None =>
      dispatch host env request (tile_path host (pathname request))
        (cacheableResponse env request (allowed_origin env request))
        (mkSt ∅ [EvCacheMatch (url request)])
  end.
Proof.
  intros Hl Hp. unfold run, fetch. rewrite Hl.
  rewrite bool_decide_eq_false_2 by done.
  unfold bind at 1. cbn [emit init log cacheableHeaders app].
  by destruct (caches_default env !! url request).
Qed.

(** *** Headers of the responses *)

Lemma get_new_Response_other b h st n :
  Str.toLowerCase n <> "content-type" ->
  Headers.get (headers (new_Response b h st)) n = Headers.get h n.
Proof.
  intros Hn. destruct b; try done. cbn.
  destruct (Headers.has h "Content-Type"); [done |].
  unfold Headers.get, Headers.set.
  by rewrite lookup_insert_ne by (intros E; apply Hn; by rewrite <- E).
Qed.

Lemma body_new_Response b h h' st st' :
  body (new_Response b h st) = body (new_Response b h' st').
Proof. by destruct b. Qed.

Lemma get_with_cors_vary allowedOrigin h :
  Headers.get (with_cors allowedOrigin h) "Vary" = Some "Origin".
Proof. apply lookup_insert_eq. Qed.

Lemma get_with_cors_allow_origin allowedOrigin h :
  Headers.get (with_cors allowedOrigin h) "Access-Control-Allow-Origin" =
  if bool_decide (allowedOrigin = "")
  then Headers.get h "Access-Control-Allow-Origin"
  else Some allowedOrigin.
Proof.
  unfold with_cors, Headers.get, Headers.set.
  rewrite lookup_insert_ne by done.
  case_bool_decide; [done |]. apply lookup_insert_eq.
Qed.

Lemma no_cors_empty : no_cors ∅.
Proof. done. Qed.

Lemma no_cors_set h n v :
  Str.toLowerCase n <> "access-control-allow-origin" ->
  Str.toLowerCase n <> "vary" ->
  no_cors h -> no_cors (Headers.set h n v).
Proof.
  intros Ha Hv [H1 H2]. unfold no_cors, Headers.get, Headers.set in *.
  by rewrite !lookup_insert_ne.
Qed.

Lemma no_cors_new_Response b h st :
  no_cors h -> no_cors (headers (new_Response b h st)).
Proof.
  intros [H1 H2]. unfold no_cors. by rewrite !get_new_Response_other.
Qed.

Lemma cache_puts_app l1 l2 :
  cache_puts (l1 ++ l2) = cache_puts l1 ++ cache_puts l2.
Proof. apply omap_app. Qed.

(** *** Routes end settled *)

Lemma preserves_ret {A} P (a : A) : preserves P (ret a).
Proof. by intros s. Qed.

Lemma preserves_await {A} P (r : Exn + A) : preserves P (await r).
Proof. by destruct r; intros s. Qed.

Lemma preserves_emit e :
  is_put e = false -> preserves nothing_stored (emit e).
Proof.
  intros He s [Hh Hl]. split; [done |]. cbn.
  rewrite cache_puts_app, Hl. by destruct e.
Qed.

Lemma preserves_set_cacheable n v :
  Str.toLowerCase n <> "access-control-allow-origin" ->
  Str.toLowerCase n <> "vary" ->
  preserves nothing_stored (set_cacheable n v).
Proof. intros Ha Hv s [Hh Hl]. split; [by apply no_cors_set | done]. Qed.

Lemma preserves_set_content_type t :
  preserves nothing_stored (set_content_type t).
Proof.
  destruct t; cbn; try apply preserves_ret;
    by apply preserves_set_cacheable.
Qed.

Lemma final_ret env request r : final env request (ret r).
Proof. intros s Hs. by left. Qed.

Lemma final_throw env request e : final env request (throw e).
Proof. intros s Hs. by left. Qed.

Lemma final_bind {A} env request (m : M A) (k : A -> M Response) :
  preserves nothing_stored m ->
  (forall a, final env request (k a)) ->
  final env request (bind m k).
Proof.
  intros Hm Hk s Hs. unfold bind. specialize (Hm s Hs).
  destruct (m s) as [[e | a] s']; [by left | by apply Hk].
Qed.

Lemma final_try_catch env request (m : M Response) (h : Exn -> M Response) :
  final env request m ->
  (forall e, final env request (h e)) ->
  final env request (try_catch m h).
Proof.
  intros Hm Hh s Hs. unfold try_catch. specialize (Hm s Hs).
  destruct (m s) as [[e | a] s'] eqn:Hms; [| done].
  apply Hh. destruct Hm as [Hm | (b & st & hd & _ & Hr & _)]; [done |].
  discriminate Hr.
Qed.

Lemma final_cacheableResponse env request b st :
  final env request
    (cacheableResponse env request (allowed_origin env request) b st).
Proof.
  intros s [Hh Hl]. right. rewrite cacheableResponse_run.
  eexists b, st, _. split; [| split; [reflexivity |]].
  - by apply no_cors_set.
  - cbn. by rewrite cache_puts_app, Hl.
Qed.

Lemma final_check_extension env request pHeader e pairs k :
  (forall r s, k (Some r) s = (inr r, s)) ->
  final env request (k None) ->
  final env request
    (bind (check_extension
             (cacheableResponse env request (allowed_origin env request))
             pHeader e pairs) k).
Proof.
  intros Hsome Hnone. induction pairs as [| [t c] pairs IH]; [done |].
  cbn [check_extension].
  destruct (bool_decide (tileType pHeader = t) && negb (bool_decide (e = c)));
    [| done].
  destruct (bool_decide (tileType pHeader = Mvt) && bool_decide (e = "pbf"));
    [done |].
  intros s Hs. unfold bind.
  pose proof (final_cacheableResponse env request
                (BString ("Bad request: requested ." +:+ e
                          +:+ " but archive has type ." +:+ c)) 400 s Hs)
    as Hf.
  rewrite cacheableResponse_run in Hf |- *. cbn zeta in Hf |- *.
  cbn [ret]. by rewrite Hsome.
Qed.

Create HintDb routes.
#[local] Hint Resolve
  preserves_ret preserves_await preserves_emit preserves_set_cacheable
  preserves_set_content_type final_ret final_throw final_cacheableResponse
  : routes.

(** One step through the structure of a route. *)
Ltac final_step :=
  first
    [ progress auto with routes
    | apply final_check_extension; [by intros |]
    | apply final_bind; [| intros ?]
    | apply final_try_catch; [| intros ?]
    | case_match ].

Lemma final_checkFonts_loop env request fonts glyphs :
  final env request
    (checkFonts_loop env
       (cacheableResponse env request (allowed_origin env request))
       fonts glyphs).
Proof.
  induction fonts as [| f fonts IH]; cbn.
  - apply final_ret.
  - repeat final_step.
Qed.

Lemma final_serve_archive host env request tp :
  final env request
    (serve_archive host env request tp
       (cacheableResponse env request (allowed_origin env request))).
Proof. unfold serve_archive. repeat final_step. Qed.

Lemma final_dispatch host env request tp :
  final env request
    (dispatch host env request tp
       (cacheableResponse env request (allowed_origin env request))).
Proof.
  pose proof (final_checkFonts_loop env request) as Hfonts.
  pose proof (final_serve_archive host env request tp) as Harch.
  unfold dispatch, checkFonts, serve_style. repeat final_step.
Qed.

(** The origin that [fetch] picks is one of the allow list, and it is the
    request's origin or the wildcard. *)
Lemma allowed_origin_matched env request :
  allowed_origin env request = "" \/
  (exists origins,
     ALLOWED_ORIGINS env = Some origins /\
     allowed_origin env request ∈ Str.split "," origins) /\
  (Origin request = Some (allowed_origin env request) \/
   allowed_origin env request = "*").
Proof.
  unfold allowed_origin. destruct (ALLOWED_ORIGINS env) as [origins |];
    [| by left].
  set (f := fun allowedOrigin o => if _ : bool then o else allowedOrigin).
  assert (forall l acc,
    fold_left f l acc = acc \/
    (fold_left f l acc ∈ l /\
     (Origin request = Some (fold_left f l acc) \/ fold_left f l acc = "*")))
    as Hfold.
  { induction l as [| o l IH]; intros acc; [by left |]. cbn [fold_left].
    destruct (IH (f acc o)) as [-> | [Hin Hm]].
    - unfold f.
      destruct (bool_decide (Some o = Origin request) || bool_decide (o = "*"))
        eqn:Hb; [| by left].
      right. split; [by left |].
      apply orb_true_iff in Hb as [Hb | Hb]; apply bool_decide_eq_true in Hb;
        auto.
    - right. split; [by right | done]. }
  destruct (Hfold (Str.split "," origins) "") as [-> | [Hin Hm]]; [by left |].
  right. split; [by exists origins | done].
Qed.

(** *** Routes that never ask for a tile *)

Lemma preserves_throw {A} P e : preserves P (@throw A e).
Proof. by intros s. Qed.

Lemma preserves_bind {A B} P (m : M A) (k : A -> M B) :
  preserves P m -> (forall a, preserves P (k a)) -> preserves P (bind m k).
Proof.
  intros Hm Hk s Hs. unfold bind. specialize (Hm s Hs).
  destruct (m s) as [[e | a] s']; [done | by apply Hk].
Qed.

Lemma calls_getZxy_app l1 l2 :
  calls_getZxy (l1 ++ l2) = calls_getZxy l1 || calls_getZxy l2.
Proof. apply existsb_app. Qed.

Lemma no_getZxy_emit e :
  is_getZxy e = false -> preserves no_getZxy (emit e).
Proof.
  intros He s Hs. unfold no_getZxy in *. cbn.
  rewrite calls_getZxy_app, Hs. cbn. by rewrite He.
Qed.

Lemma no_getZxy_set_cacheable n v : preserves no_getZxy (set_cacheable n v).
Proof. by intros s Hs. Qed.

Lemma no_getZxy_cacheableResponse env request allowedOrigin b st :
  preserves no_getZxy (cacheableResponse env request allowedOrigin b st).
Proof.
  intros s Hs. rewrite cacheableResponse_run. unfold no_getZxy in *. cbn.
  by rewrite calls_getZxy_app, Hs.
Qed.

Create HintDb tiles.
#[local] Hint Resolve
  preserves_ret preserves_throw preserves_await no_getZxy_emit
  no_getZxy_set_cacheable no_getZxy_cacheableResponse : tiles.

(** One step through a route that does not reach the archive reader. *)
Ltac no_getZxy_step :=
  first
    [ progress auto with tiles
    | apply preserves_bind; [| intros ?]
    | case_match ].

Lemma no_getZxy_forEach_record host records results :
  preserves no_getZxy (forEach_record host records results).
Proof.
  revert results. induction records as [| record records IH]; intros results.
  - apply preserves_ret.
  - cbn. unfold parse. repeat no_getZxy_step.
Qed.

Lemma no_getZxy_listing host env :
  preserves no_getZxy (getAvailablePmTilesFromD1 host env).
Proof.
  pose proof (no_getZxy_forEach_record host) as Hrec.
  unfold getAvailablePmTilesFromD1. repeat no_getZxy_step.
Qed.

Lemma no_getZxy_checkFonts env request objectKey :
  preserves no_getZxy
    (checkFonts env objectKey
       (cacheableResponse env request (allowed_origin env request))).
Proof.
  assert (forall fonts glyphs,
            preserves no_getZxy
              (checkFonts_loop env
                 (cacheableResponse env request (allowed_origin env request))
                 fonts glyphs)) as Hloop.
  { intros fonts glyphs. induction fonts as [| f fonts IH]; cbn.
    - apply preserves_ret.
    - repeat no_getZxy_step. }
  unfold checkFonts. repeat no_getZxy_step.
Qed.

Lemma no_getZxy_serve_style env request objectKey :
  preserves no_getZxy
    (serve_style env objectKey
       (cacheableResponse env request (allowed_origin env request))).
Proof. unfold serve_style. repeat no_getZxy_step. Qed.

(** With an archive header that excludes the zoom of the tile, the [try]
    block of [fetch] answers right after reading the header. *)
Lemma serve_archive_out_of_range host env request tp z x y pHeader s :
  tile tp = Some (z, x, y) ->
  getHeader env (name tp) = inr pHeader ->
  z < minZoom pHeader \/ z > maxZoom pHeader ->
  serve_archive host env request tp
    (cacheableResponse env request (allowed_origin env request)) s =
  cacheableResponse env request (allowed_origin env request) BUndefined 404
    (mkSt (cacheableHeaders s) (log s ++ [EvGetHeader (name tp)])).
Proof.
  intros Ht Hh Hz. unfold serve_archive, try_catch.
  unfold bind at 1. cbn [emit].
  unfold bind at 1. rewrite Hh. cbn [await ret]. rewrite Ht.
  replace ((z <? minZoom pHeader) || (z >? maxZoom pHeader)) with true
    by (symmetry; apply orb_true_iff; lia).
  by rewrite cacheableResponse_run.
Qed.

(** Whatever route a request takes, [getZxy] is not called when the zoom of
    its tile is outside the bounds of the archive header. *)
Lemma fetch_out_of_range_no_getZxy host env request tp z x y pHeader :
  tile_path host (pathname request) = tp ->
  tile tp = Some (z, x, y) ->
  getHeader env (name tp) = inr pHeader ->
  z < minZoom pHeader \/ z > maxZoom pHeader ->
  no_getZxy (run (fetch host env request)).2.
Proof.
  intros Htp Ht Hh Hz. unfold run.
  assert (preserves no_getZxy (fetch host env request)) as Hfetch;
    [| by apply Hfetch].
  pose proof (no_getZxy_listing host env) as Hlist.
  pose proof (no_getZxy_checkFonts env request) as Hfonts.
  pose proof (no_getZxy_serve_style env request) as Hstyle.
  assert (preserves no_getZxy
            (serve_archive host env request tp
               (cacheableResponse env request (allowed_origin env request))))
    as Harch.
  { intros s Hs.
    rewrite (serve_archive_out_of_range _ _ _ _ _ _ _ _ _ Ht Hh Hz).
    apply no_getZxy_cacheableResponse. by apply no_getZxy_emit. }
  unfold fetch, dispatch. rewrite Htp. repeat no_getZxy_step.
Qed.

(** A read request under [/fonts] that misses the edge cache is handed to
    [checkFonts], with the path less its leading slash as the object key. *)
Lemma fetch_font_route host env request :
  is_list_path (pathname request) = false ->
  caches_default env !! url request = None ->
  is_read_method (method request) = true ->
  Str.startsWith (pathname request) "/fonts" = true ->
  run (fetch host env request) =
  checkFonts env (Str.substring1 (pathname request))
    (cacheableResponse env request (allowed_origin env request))
    (mkSt ∅ [EvCacheMatch (url request)]).
Proof.
  intros Hl Hc Hm Hf.
  assert (Str.toUpperCase (method request) <> "POST") as Hp.
  { unfold is_read_method in Hm. apply bool_decide_eq_true in Hm.
    rewrite !elem_of_cons in Hm.
    destruct Hm as [-> | [-> | [-> | Hm]]]; try (by vm_compute).
    by apply elem_of_nil in Hm. }
  rewrite (fetch_past_method_check _ _ _ Hl Hp), Hc.
  unfold dispatch. by rewrite Hm, Hf.
Qed.

(** ** The claims *)

(** C2: when the zoom of the requested tile is strictly below [minZoom] or
    strictly above [maxZoom] of the archive header, [getZxy] is not called,
    and the tile request is answered with status 404 and no body. *)
Theorem zoom_out_of_range_404 host env request tp z x y pHeader :
  tile_path host (pathname request) = tp ->
  tile tp = Some (z, x, y) ->
  getHeader env (name tp) = inr pHeader ->
  z < minZoom pHeader \/ z > maxZoom pHeader ->
  calls_getZxy (log_of (run (fetch host env request))) = false /\
  (tile_request host env request tp z x y pHeader ->
   exists r,
     response_of (run (fetch host env request)) = Some r /\
     status r = 404 /\
     body r = None).
Proof.
  intros Htp Ht Hh Hz. split.
  - by apply (fetch_out_of_range_no_getZxy host env request tp z x y pHeader).
  - intros Hreq.
    rewrite (fetch_out_of_range _ _ _ _ _ _ _ _ Hreq Hz), cacheableResponse_run.
    eexists. by repeat split.
Qed.

(** C9: a tile request within the zoom bounds that passes the extension
    check and for which [getZxy] has no tile is answered with status 204
    and no body, and that response is handed to the edge cache under the
    request URL, with the cache lifetime every cached response gets. *)
Theorem missing_tile_204_cached host env request tp z x y pHeader :
  tile_request host env request tp z x y pHeader ->
  minZoom pHeader <= z <= maxZoom pHeader ->
  passes_extension_check (tileType pHeader) (ext tp) = true ->
  getZxy env (name tp) z x y = inr None ->
  exists r stored,
    response_of (run (fetch host env request)) = Some r /\
    status r = 204 /\
    body r = None /\
    cache_puts (log_of (run (fetch host env request)))
      = [(url request, stored)] /\
    status stored = 204 /\
    body stored = None /\
    Headers.get (headers stored) "Cache-Control"
      = Some (Str.or_else (CACHE_CONTROL env) "public, max-age=86400").
Proof.
  intros Hreq Hz Hpass Hzxy.
  rewrite (fetch_served _ _ _ _ _ _ _ _ _ Hreq Hz Hpass Hzxy).
  rewrite cacheableResponse_run.
  set (h := Headers.set _ "Cache-Control" _).
  exists (new_Response BUndefined (with_cors (allowed_origin env request) h) 204),
    (new_Response BUndefined h 204).
  repeat split.
  - unfold log_of. cbn. by rewrite served_state_log.
  - apply lookup_insert_eq.
Qed.

(** C10: an accepted tile request against an archive of type [Avif] is
    answered with status 200 and the tile, without a [Content-Type] header;
    the 200 response of an accepted tile request has a [Content-Type]
    exactly for the types [Mvt], [Png], [Jpeg] and [Webp]. *)
Theorem avif_tile_without_content_type host env request tp z x y pHeader td :
  tile_request host env request tp z x y pHeader ->
  minZoom pHeader <= z <= maxZoom pHeader ->
  passes_extension_check (tileType pHeader) (ext tp) = true ->
  getZxy env (name tp) z x y = inr (Some td) ->
  exists r,
    response_of (run (fetch host env request)) = Some r /\
    status r = 200 /\
    body r = Some (data td) /\
    (tileType pHeader = Avif ->
     Headers.get (headers r) "Content-Type" = None) /\
    (is_Some (Headers.get (headers r) "Content-Type") <->
     tileType pHeader ∈ [Mvt; Png; Jpeg; Webp]).
Proof.
  intros Hreq Hz Hpass Hzxy.
  rewrite (fetch_served _ _ _ _ _ _ _ _ _ Hreq Hz Hpass Hzxy).
  rewrite cacheableResponse_run.
  eexists. split; [reflexivity |]. split; [done |]. split; [done |].
  cbn [headers new_Response].
  rewrite get_with_cors_other by done.
  unfold Headers.get at 1 2, Headers.set.
  rewrite lookup_insert_ne by done.
  fold (Headers.get
          (cacheableHeaders
             (served_state tp request z x y (tileType pHeader)))
          "Content-Type").
  rewrite served_state_content_type.
  destruct (tileType pHeader); (split; [done |]);
    rewrite is_Some_alt, list_elem_of_In; cbn; intuition congruence.
Qed.

(** C1, as the code has it: for a tile request within the zoom bounds
    against an archive whose type is one of [Mvt], [Png], [Jpeg], [Webp] and
    [Avif], [getZxy] is called exactly when the extension is the canonical
    one of the type or the type is [Mvt] and the extension is [pbf]; every
    other extension is answered with status 400 and a body that names the
    requested and the canonical extension.  Against an archive of type
    [Unknown] every extension is accepted. *)
Theorem extension_check_known_types host env request tp z x y pHeader :
  tile_request host env request tp z x y pHeader ->
  minZoom pHeader <= z <= maxZoom pHeader ->
  (tileType pHeader <> Unknown ->
   (calls_getZxy (log_of (run (fetch host env request))) = true <->
    extension_accepted (tileType pHeader) (ext tp)) /\
   (~ extension_accepted (tileType pHeader) (ext tp) ->
    exists c r,
      canonical_extension (tileType pHeader) = Some c /\
      response_of (run (fetch host env request)) = Some r /\
      status r = 400 /\
      body r = Some (list_byte_of_string
                       ("Bad request: requested ." +:+ ext tp
                        +:+ " but archive has type ." +:+ c)))) /\
  (tileType pHeader = Unknown ->
   calls_getZxy (log_of (run (fetch host env request))) = true).
Proof.
  intros Hreq Hz. split.
  - intros Hknown.
    pose proof (passes_extension_check_iff _ (ext tp) Hknown) as Hiff.
    destruct (passes_extension_check (tileType pHeader) (ext tp)) eqn:Hpass.
    + split.
      * split; [intros _; by apply Hiff |].
        intros _. by apply (fetch_accepted_calls _ _ _ _ _ _ _ _ Hreq Hz).
      * intros Hno. destruct Hno. by apply Hiff.
    + assert (exists c, canonical_extension (tileType pHeader) = Some c)
        as [c Hc].
      { rewrite canonical_extension_table. destruct (tileType pHeader); eauto.
        done. }
      rewrite (fetch_mismatch _ _ _ _ _ _ _ _ _ Hreq Hz Hpass Hc).
      rewrite cacheableResponse_run. split.
      * split; [done |]. intros Hacc. apply Hiff in Hacc. done.
      * intros _. exists c. eexists. by repeat split.
  - intros Hu. apply (fetch_accepted_calls _ _ _ _ _ _ _ _ Hreq Hz).
    unfold passes_extension_check. by rewrite Hu.
Qed.

(** C8: [nativeDecompress] returns the buffer unchanged for the tags [None]
    and [Unknown], hands it to the runtime's gzip stream for [Gzip], and
    fails with an error, returning no bytes, for every other tag. *)
Theorem nativeDecompress_by_tag host buf :
  nativeDecompress host buf CNone = inr buf /\
  nativeDecompress host buf CUnknown = inr buf /\
  nativeDecompress host buf CGzip = gunzip host buf /\
  forall c, c <> CNone -> c <> CUnknown -> c <> CGzip ->
    nativeDecompress host buf c = inl (Error "Compression method not supported").
Proof.
  repeat split. intros c Hn Hu Hg. unfold nativeDecompress.
  by rewrite !bool_decide_eq_false_2.
Qed.

(** C4: a call of [getBytes] asks the store once and ends in exactly one of
    three ways: it raises [KeyNotFoundError] exactly when the store has no
    object, it raises [EtagMismatch] exactly when the store answers with an
    object without a body, and it returns a range response exactly when the
    object has a body, with that body and the object's etag. *)
Theorem getBytes_outcomes host env archiveName offset length tag s :
  let key := pmtiles_path host archiveName (PMTILES_PATH env) in
  let answer := BUCKET_onlyIf env key offset length tag in
  let r := getBytes host env archiveName offset length tag s in
  log r.2 = log s ++ [EvBucketGetRange key offset length tag] /\
  (r.1 = inl (KeyNotFoundError "Archive not found") <-> answer = None) /\
  (r.1 = inl EtagMismatch <-> exists o, answer = Some o /\ o_body o = None) /\
  (forall rr, r.1 = inr rr <->
     exists o, answer = Some o /\ o_body o = Some (data rr) /\
       rr = mkRangeResponse (data rr) (Some (o_etag o)) (o_cacheControl o)
              (o_cacheExpiry o)) /\
  (r.1 = inl (KeyNotFoundError "Archive not found") \/
   r.1 = inl EtagMismatch \/
   exists rr, r.1 = inr rr).
Proof.
  cbn zeta. unfold getBytes, bind. cbn [emit].
  destruct (BUCKET_onlyIf env _ offset length tag) as [o |] eqn:Ho;
    [destruct (o_body o) as [a |] eqn:Hb |]; cbn.
  - split; [done |]. split; [done |]. split.
    { split; [done |]. intros (o' & Ho' & Hb'). congruence. }
    split; [| right; right; by eexists].
    intros rr. split.
    + intros [= <-]. exists o. by rewrite Hb.
    + intros (o' & [= <-] & Hb' & ->). do 2 f_equal. congruence.
  - split; [done |]. split; [done |]. split.
    { split; [intros _; by exists o | done]. }
    split; [| right; by left]. intros rr. split; [done |].
    intros (o' & [= <-] & Hb' & _). congruence.
  - split; [done |]. split; [done |]. split.
    { split; [done |]. by intros (o' & Ho' & _). }
    split; [| by left]. intros rr. split; [done |]. by intros (o' & Ho' & _).
Qed.

(** C6, as the code has it: a request that is not for the listing and whose
    method reads [POST] in upper case is answered with status 405, no body
    and no headers, before any collaborator is asked. *)
Theorem post_405 host env request :
  is_list_path (pathname request) = false ->
  Str.toUpperCase (method request) = "POST" ->
  run (fetch host env request) = (inr (mkResponse 405 ∅ None), init).
Proof.
  intros Hl Hp. unfold run, fetch. rewrite Hl.
  by rewrite bool_decide_eq_true_2.
Qed.

(** C5: for a font request with the family list [fonts] and the glyph range
    [glyphs], [checkFonts] probes [fonts/<family>/<glyphs>] family by
    family in the listed order and stops at the first family whose object
    exists: it answers with the bytes of that object, status 200 and the
    content type [application/x-protobuf].  When no listed family has an
    object, every family has been probed and the answer has status 404. *)
Theorem checkFonts_first_family env request objectKey fonts glyphs s :
  font_request objectKey = Some (fonts, glyphs) ->
  let r := checkFonts env objectKey
             (cacheableResponse env request (allowed_origin env request)) s in
  match list_find (fun f => is_Some (BUCKET env !! font_key glyphs f)) fonts with
  | Some (i, f) =>
      exists a resp,
        BUCKET env !! font_key glyphs f = Some a /\
        response_of r = Some resp /\
        status resp = 200 /\
        body resp = Some a /\
        Headers.get (headers resp) "Content-Type"
          = Some "application/x-protobuf" /\
        bucket_gets (log_of r)
          = bucket_gets (log s) ++ (font_key glyphs <$> take (S i) fonts)
  | None =>
      exists resp,
        response_of r = Some resp /\
        status resp = 404 /\
        bucket_gets (log_of r)
          = bucket_gets (log s) ++ (font_key glyphs <$> fonts)
  end.
Proof.
  unfold font_request, checkFonts. intros Hreq.
  destruct (Str.split "/" (Str.replace_pct20 objectKey) !! 1%nat)
    as [families |]; [| done].
  destruct (Str.split "/" (Str.replace_pct20 objectKey) !! 2%nat)
    as [g |]; [| done].
  injection Hreq as <- <-. cbn zeta. cbn [Str.interpolate].
  rewrite checkFonts_loop_first_hit.
  destruct (list_find _ _) as [[i f] |] eqn:Hfind.
  - apply list_find_Some in Hfind as (_ & [a Ha] & _).
    unfold bind. cbn [set_cacheable]. rewrite cacheableResponse_run, Ha.
    exists a. eexists. split; [done |]. split; [reflexivity |].
    split; [done |]. split; [done |]. split.
    + cbn [headers new_Response]. rewrite get_with_cors_other by done.
      unfold Headers.get, Headers.set.
      rewrite lookup_insert_ne by done. apply lookup_insert_eq.
    + unfold log_of. cbn.
      by rewrite !bucket_gets_app, bucket_gets_probes, app_nil_r.
  - eexists. split; [reflexivity |]. split; [done |].
    unfold log_of. cbn. by rewrite bucket_gets_app, bucket_gets_probes.
Qed.

(** C3, as the code has it: for a request that is neither for the listing
    nor a [POST], the lookup of the request URL in the edge cache is the
    first call [fetch] makes, before the font, style and tile routes, and a
    hit short-circuits these routes: the lookup stays the only call, and the
    answer has the status and the body of the cached response. *)
Theorem cache_lookup_before_routes host env request :
  is_list_path (pathname request) = false ->
  Str.toUpperCase (method request) <> "POST" ->
  (exists l, log_of (run (fetch host env request))
             = EvCacheMatch (url request) :: l) /\
  (forall cached,
     caches_default env !! url request = Some cached ->
     exists r,
       response_of (run (fetch host env request)) = Some r /\
       status r = status cached /\
       body r = body cached /\
       log_of (run (fetch host env request)) = [EvCacheMatch (url request)]).
Proof.
  intros Hl Hp. rewrite (fetch_past_method_check _ _ _ Hl Hp). split.
  - destruct (caches_default env !! url request) as [cached |].
    + by exists [].
    + destruct (extends_dispatch host env request
                  (tile_path host (pathname request))
                  (cacheableResponse env request (allowed_origin env request))
                  (extends_cacheableResponse env request _)
                  (mkSt ∅ [EvCacheMatch (url request)])) as [l Hlog].
      exists l. unfold log_of. by rewrite Hlog.
  - intros cached ->. exists (serve_cached env request cached).
    split; [done |]. split; [apply status_new_Response |]. split; [| done].
    unfold serve_cached, body_stream. by destruct (body cached).
Qed.

(** C7, as the code has it: for a request that is neither for the listing
    nor a [POST], the allowed origin is empty or an entry of the allow list
    that is the request's origin or the wildcard.  A response served from
    the edge cache has [Vary: Origin] and, when an origin is allowed, that
    origin as [Access-Control-Allow-Origin].  Whenever a response is handed
    to the edge cache, it is stored under the request URL without
    [Access-Control-Allow-Origin] and without [Vary], and the client gets
    the same status and body with [Vary: Origin] and with the allowed
    origin, if there is one, as [Access-Control-Allow-Origin]. *)
Theorem cors_applied_at_serve_time host env request :
  is_list_path (pathname request) = false ->
  Str.toUpperCase (method request) <> "POST" ->
  let allowedOrigin := allowed_origin env request in
  let r := run (fetch host env request) in
  (allowedOrigin = "" \/
   (exists origins,
      ALLOWED_ORIGINS env = Some origins /\
      allowedOrigin ∈ Str.split "," origins) /\
   (Origin request = Some allowedOrigin \/ allowedOrigin = "*")) /\
  (forall cached,
     caches_default env !! url request = Some cached ->
     exists resp,
       response_of r = Some resp /\
       Headers.get (headers resp) "Vary" = Some "Origin" /\
       (allowedOrigin <> "" ->
        Headers.get (headers resp) "Access-Control-Allow-Origin"
          = Some allowedOrigin) /\
       cache_puts (log_of r) = []) /\
  (forall u stored,
     (u, stored) ∈ cache_puts (log_of r) ->
     u = url request /\
     no_cors (headers stored) /\
     exists resp,
       response_of r = Some resp /\
       status resp = status stored /\
       body resp = body stored /\
       Headers.get (headers resp) "Vary" = Some "Origin" /\
       Headers.get (headers resp) "Access-Control-Allow-Origin"
         = if bool_decide (allowedOrigin = "") then None
           else Some allowedOrigin).
Proof.
  intros Hl Hp. cbn zeta. split; [apply allowed_origin_matched |].
  rewrite (fetch_past_method_check _ _ _ Hl Hp). split.
  - intros cached ->. exists (serve_cached env request cached).
    split; [done |]. unfold serve_cached.
    rewrite !get_new_Response_other by done.
    rewrite get_with_cors_vary, get_with_cors_allow_origin.
    split; [done |]. split; [| done].
    intros Hne. by rewrite bool_decide_eq_false_2.
  - intros u stored Hin.
    destruct (caches_default env !! url request) as [cached |].
    { by apply elem_of_nil in Hin. }
    pose proof (final_dispatch host env request
                  (tile_path host (pathname request))
                  (mkSt ∅ [EvCacheMatch (url request)])) as Hfinal.
    destruct Hfinal as [[_ Hnone] | (b & st & h & Hh & Hr & Hputs)].
    { by split; [apply no_cors_empty |]. }
    { unfold log_of in Hin. rewrite Hnone in Hin.
      by apply elem_of_nil in Hin. }
    unfold log_of in Hin. rewrite Hputs in Hin.
    apply list_elem_of_singleton in Hin as [= -> ->].
    split; [done |]. split; [by apply no_cors_new_Response |].
    unfold response_of. rewrite Hr. eexists. split; [reflexivity |].
    rewrite !status_new_Response, !get_new_Response_other by done.
    rewrite get_with_cors_vary, get_with_cors_allow_origin.
    split; [done |]. split; [apply body_new_Response |]. split; [done |].
    case_bool_decide; [apply Hh | done].
Qed.

(** ** The claims on concrete requests *)

(** Every condition of [tile_request] is decided by evaluation. *)
Ltac evaluate :=
  repeat split;
  first [ vm_compute; reflexivity
        | vm_compute; discriminate
        | vm_compute; intros [? ?]; discriminate
        | vm_compute; lia
        | idtac ].

(** The scenarios of the specification. *)

Example mvt_tile_is_served :
  summary (run (fetch Demo.host Demo.mvt_world
                  (Demo.get "/myarchive/5/3/2.mvt")))
  = Some (200, Some "application/x-protobuf",
          Some (string_of_list_byte Demo.tile_bytes)) /\
  log_of (run (fetch Demo.host Demo.mvt_world
                 (Demo.get "/myarchive/5/3/2.mvt")))
  = [EvCacheMatch "https://tiles.example.com/myarchive/5/3/2.mvt";
     EvGetHeader "myarchive";
     EvGetZxy "myarchive" 5 3 2;
     EvCachePut "https://tiles.example.com/myarchive/5/3/2.mvt"
       Demo.stored_tile].
Proof. by vm_compute. Qed.

Example png_of_mvt_archive_is_rejected :
  summary (run (fetch Demo.host Demo.mvt_world
                  (Demo.get "/myarchive/5/3/2.png")))
  = Some (400, Some "text/plain;charset=UTF-8",
          Some "Bad request: requested .png but archive has type .mvt").
Proof. by vm_compute. Qed.

Example empty_listing :
  summary (run (fetch Demo.host Demo.mvt_world (Demo.get "/list")))
  = Some (200, Some "application/json", Some "{}").
Proof. by vm_compute. Qed.

Example font_fallback :
  summary (run (fetch Demo.host Demo.mvt_world
                  (Demo.get "/fonts/A,B/0-255.pbf")))
  = Some (200, Some "application/x-protobuf",
          Some (string_of_list_byte Demo.glyphs)) /\
  bucket_gets (log_of (run (fetch Demo.host Demo.mvt_world
                              (Demo.get "/fonts/A,B/0-255.pbf"))))
  = ["fonts/A/0-255.pbf"; "fonts/B/0-255.pbf"].
Proof. by vm_compute. Qed.

Example font_missing :
  summary (run (fetch Demo.host Demo.mvt_world
                  (Demo.get "/fonts/A,Noto%20Sans/0-255.pbf")))
  = Some (404, Some "text/plain;charset=UTF-8", Some "Font not found") /\
  bucket_gets (log_of (run (fetch Demo.host Demo.mvt_world
                              (Demo.get "/fonts/A,Noto%20Sans/0-255.pbf"))))
  = ["fonts/A/0-255.pbf"; "fonts/Noto Sans/0-255.pbf"].
Proof. by vm_compute. Qed.

Example stale_etag_is_a_mismatch :
  (getBytes Demo.host Demo.mvt_world "myarchive" 0 127 (Some "stale") init).1
  = inl EtagMismatch /\
  (getBytes Demo.host Demo.mvt_world "other" 0 127 None init).1
  = inl (KeyNotFoundError "Archive not found") /\
  (getBytes Demo.host Demo.mvt_world "myarchive" 0 127 (Some "fresh") init).1
  = inr Demo.tile_response.
Proof. by vm_compute. Qed.

(** C1 fails as stated: an archive of type [Unknown] has no canonical
    extension, and a tile request for [.png] against it is accepted all
    the same, with status 200. *)
Lemma unknown_type_accepts_any_extension :
  tile_request Demo.host Demo.unknown_world (Demo.get "/myarchive/5/3/2.png")
    (Demo.parsed 5 "png") 5 3 2 (mkHeader 0 10 Unknown) /\
  0 <= 5 <= 10 /\
  calls_getZxy
    (log_of (run (fetch Demo.host Demo.unknown_world
                    (Demo.get "/myarchive/5/3/2.png")))) = true /\
  status <$> response_of
               (run (fetch Demo.host Demo.unknown_world
                       (Demo.get "/myarchive/5/3/2.png"))) = Some 200 /\
  ~ extension_accepted Unknown "png".
Proof.
  split; [evaluate |]. split; [lia |]. split; [by vm_compute |].
  split; [by vm_compute |]. by intros [H | [H _]].
Qed.

(** The legacy extension [pbf] against an archive of type [Mvt]. *)
Lemma extension_check_known_types_witness :
  tile_request Demo.host Demo.mvt_world (Demo.get "/myarchive/5/3/2.pbf")
    (Demo.parsed 5 "pbf") 5 3 2 (mkHeader 0 10 Mvt) /\
  0 <= 5 <= 10 /\
  (calls_getZxy
     (log_of (run (fetch Demo.host Demo.mvt_world
                     (Demo.get "/myarchive/5/3/2.pbf")))) = true <->
   extension_accepted Mvt "pbf").
Proof.
  assert (tile_request Demo.host Demo.mvt_world
            (Demo.get "/myarchive/5/3/2.pbf") (Demo.parsed 5 "pbf") 5 3 2
            (mkHeader 0 10 Mvt)) as Hreq by evaluate.
  assert (0 <= 5 <= 10) as Hz by lia.
  split; [exact Hreq |]. split; [exact Hz |].
  destruct (extension_check_known_types _ _ _ _ _ _ _ _ Hreq Hz)
    as [Hknown _].
  destruct Hknown as [Hiff _]; [discriminate |]. exact Hiff.
Defined.

(** Zoom 12 against an archive with the zoom levels 0 to 10. *)
Lemma zoom_out_of_range_404_witness :
  tile_request Demo.host Demo.mvt_world (Demo.get "/myarchive/12/3/2.mvt")
    (Demo.parsed 12 "mvt") 12 3 2 (mkHeader 0 10 Mvt) /\
  12 > 10 /\
  calls_getZxy
    (log_of (run (fetch Demo.host Demo.mvt_world
                    (Demo.get "/myarchive/12/3/2.mvt")))) = false /\
  exists r,
    response_of (run (fetch Demo.host Demo.mvt_world
                        (Demo.get "/myarchive/12/3/2.mvt"))) = Some r /\
    status r = 404 /\
    body r = None.
Proof.
  assert (tile_request Demo.host Demo.mvt_world
            (Demo.get "/myarchive/12/3/2.mvt") (Demo.parsed 12 "mvt") 12 3 2
            (mkHeader 0 10 Mvt)) as Hreq by evaluate.
  assert (12 > 10) as Hz by lia.
  split; [exact Hreq |]. split; [exact Hz |].
  destruct (zoom_out_of_range_404 Demo.host Demo.mvt_world
              (Demo.get "/myarchive/12/3/2.mvt") (Demo.parsed 12 "mvt")
              12 3 2 (mkHeader 0 10 Mvt)) as [Hno Hresp].
  - vm_compute; reflexivity.
  - reflexivity.
  - reflexivity.
  - right. exact Hz.
  - split; [exact Hno | exact (Hresp Hreq)].
Defined.

(** A tile the archive does not have. *)
Lemma missing_tile_204_cached_witness :
  tile_request Demo.host Demo.sparse_world (Demo.get "/myarchive/5/3/2.mvt")
    (Demo.parsed 5 "mvt") 5 3 2 (mkHeader 0 10 Mvt) /\
  exists r stored,
    response_of (run (fetch Demo.host Demo.sparse_world
                        (Demo.get "/myarchive/5/3/2.mvt"))) = Some r /\
    status r = 204 /\
    body r = None /\
    cache_puts
      (log_of (run (fetch Demo.host Demo.sparse_world
                      (Demo.get "/myarchive/5/3/2.mvt"))))
      = [(url (Demo.get "/myarchive/5/3/2.mvt"), stored)] /\
    status stored = 204 /\
    body stored = None /\
    Headers.get (headers stored) "Cache-Control"
      = Some (Str.or_else (CACHE_CONTROL Demo.sparse_world)
                "public, max-age=86400").
Proof.
  assert (tile_request Demo.host Demo.sparse_world
            (Demo.get "/myarchive/5/3/2.mvt") (Demo.parsed 5 "mvt") 5 3 2
            (mkHeader 0 10 Mvt)) as Hreq by evaluate.
  split; [exact Hreq |].
  apply (missing_tile_204_cached _ _ _ _ _ _ _ _ Hreq).
  - evaluate.
  - reflexivity.
  - reflexivity.
Defined.

(** A tile of an archive of type [Avif]. *)
Lemma avif_tile_without_content_type_witness :
  tile_request Demo.host Demo.avif_world (Demo.get "/myarchive/5/3/2.avif")
    (Demo.parsed 5 "avif") 5 3 2 (mkHeader 0 10 Avif) /\
  exists r,
    response_of (run (fetch Demo.host Demo.avif_world
                        (Demo.get "/myarchive/5/3/2.avif"))) = Some r /\
    status r = 200 /\
    body r = Some Demo.tile_bytes /\
    Headers.get (headers r) "Content-Type" = None.
Proof.
  assert (tile_request Demo.host Demo.avif_world
            (Demo.get "/myarchive/5/3/2.avif") (Demo.parsed 5 "avif") 5 3 2
            (mkHeader 0 10 Avif)) as Hreq by evaluate.
  split; [exact Hreq |].
  destruct (avif_tile_without_content_type _ _ _ _ _ _ _ _ Demo.tile_response
              Hreq)
    as (r & Hr & Hst & Hb & Havif & _).
  - evaluate.
  - reflexivity.
  - reflexivity.
  - exists r. repeat split; [exact Hr | exact Hst | exact Hb |].
    by apply Havif.
Defined.

(** Two families of which only the second has glyphs. *)
Lemma checkFonts_first_family_witness :
  font_request "fonts/A,B/0-255.pbf" = Some (["A"; "B"], "0-255.pbf") /\
  exists resp,
    response_of
      (checkFonts Demo.mvt_world "fonts/A,B/0-255.pbf"
         (cacheableResponse Demo.mvt_world (Demo.get "/fonts/A,B/0-255.pbf")
            (allowed_origin Demo.mvt_world
               (Demo.get "/fonts/A,B/0-255.pbf"))) init) = Some resp /\
    status resp = 200 /\
    body resp = Some Demo.glyphs.
Proof.
  assert (font_request "fonts/A,B/0-255.pbf"
          = Some (["A"; "B"], "0-255.pbf")) as Hreq by reflexivity.
  split; [exact Hreq |].
  pose proof (checkFonts_first_family Demo.mvt_world
                (Demo.get "/fonts/A,B/0-255.pbf") _ _ _ init Hreq) as H.
  cbv zeta in H.
  change (list_find
            (fun f => is_Some (BUCKET Demo.mvt_world !! font_key "0-255.pbf" f))
            ["A"; "B"])
    with (Some (1%nat, "B")) in H.
  destruct H as (a & resp & Ha & Hr & Hst & Hb & _).
  exists resp. split; [exact Hr |]. split; [exact Hst |].
  rewrite Hb. rewrite <- Ha. reflexivity.
Defined.

(** A [POST], in whatever case the method is written. *)
Lemma post_405_witness :
  is_list_path
    (pathname (Demo.with_method "post" (Demo.get "/myarchive/5/3/2.mvt")))
    = false /\
  Str.toUpperCase
    (method (Demo.with_method "post" (Demo.get "/myarchive/5/3/2.mvt")))
    = "POST" /\
  run (fetch Demo.host Demo.mvt_world
         (Demo.with_method "post" (Demo.get "/myarchive/5/3/2.mvt")))
  = (inr (mkResponse 405 ∅ None), init).
Proof.
  split; [reflexivity |]. split; [reflexivity |].
  apply post_405; reflexivity.
Defined.

(** C6 fails as stated: a [DELETE] is neither [GET], [HEAD] nor [OPTIONS],
    and for a tile path it is answered like a [GET], with status 200. *)
Lemma delete_is_served :
  is_list_path (pathname (Demo.get "/myarchive/5/3/2.mvt")) = false /\
  is_read_method "DELETE" = false /\
  status <$> response_of
               (run (fetch Demo.host Demo.mvt_world
                       (Demo.with_method "DELETE"
                          (Demo.get "/myarchive/5/3/2.mvt")))) = Some 200.
Proof. by vm_compute. Qed.

(** C3 fails as stated: with the URL of the listing in the edge cache, a
    request for the listing still runs the listing handler, which queries
    the metadata store, and the edge cache is not looked up at all. *)
Lemma listing_ignores_cache :
  caches_default (Demo.warm_world "/list") !! url (Demo.get "/list")
    = Some Demo.cached_response /\
  log_of (run (fetch Demo.host (Demo.warm_world "/list") (Demo.get "/list")))
    = [EvD1All] /\
  body <$> response_of
             (run (fetch Demo.host (Demo.warm_world "/list")
                     (Demo.get "/list")))
    = Some (Some (list_byte_of_string "{}")).
Proof. by vm_compute. Qed.

(** A tile request whose URL the edge cache holds. *)
Lemma cache_lookup_before_routes_witness :
  is_list_path (pathname (Demo.get "/myarchive/5/3/2.mvt")) = false /\
  Str.toUpperCase (method (Demo.get "/myarchive/5/3/2.mvt")) <> "POST" /\
  caches_default (Demo.warm_world "/myarchive/5/3/2.mvt")
    !! url (Demo.get "/myarchive/5/3/2.mvt") = Some Demo.cached_response /\
  exists r,
    response_of (run (fetch Demo.host (Demo.warm_world "/myarchive/5/3/2.mvt")
                        (Demo.get "/myarchive/5/3/2.mvt"))) = Some r /\
    status r = 200 /\
    body r = Some Demo.glyphs /\
    log_of (run (fetch Demo.host (Demo.warm_world "/myarchive/5/3/2.mvt")
                   (Demo.get "/myarchive/5/3/2.mvt")))
      = [EvCacheMatch (url (Demo.get "/myarchive/5/3/2.mvt"))].
Proof.
  assert (is_list_path (pathname (Demo.get "/myarchive/5/3/2.mvt")) = false)
    as Hl by reflexivity.
  assert (Str.toUpperCase (method (Demo.get "/myarchive/5/3/2.mvt"))
          <> "POST") as Hp by (vm_compute; discriminate).
  assert (caches_default (Demo.warm_world "/myarchive/5/3/2.mvt")
            !! url (Demo.get "/myarchive/5/3/2.mvt")
          = Some Demo.cached_response) as Hc by (vm_compute; reflexivity).
  split; [exact Hl |]. split; [exact Hp |]. split; [exact Hc |].
  destruct (cache_lookup_before_routes Demo.host
              (Demo.warm_world "/myarchive/5/3/2.mvt")
              (Demo.get "/myarchive/5/3/2.mvt") Hl Hp) as [_ Hhit].
  exact (Hhit Demo.cached_response Hc).
Defined.

(** C7 fails as stated: a path that does not parse is answered, on a miss
    in the edge cache, with status 404 and without a [Vary] header. *)
Lemma invalid_url_without_vary :
  caches_default Demo.mvt_world !! url (Demo.get "/nothing") = None /\
  exists resp,
    response_of (run (fetch Demo.host Demo.mvt_world (Demo.get "/nothing")))
      = Some resp /\
    status resp = 404 /\
    Headers.get (headers resp) "Vary" = None.
Proof. split; [by vm_compute |]. eexists. by vm_compute. Qed.

(** A tile request from the allowed origin that goes to the edge cache. *)
Lemma cors_applied_at_serve_time_witness :
  is_list_path (pathname (Demo.get "/myarchive/5/3/2.mvt")) = false /\
  Str.toUpperCase (method (Demo.get "/myarchive/5/3/2.mvt")) <> "POST" /\
  (url (Demo.get "/myarchive/5/3/2.mvt"), Demo.stored_tile)
    ∈ cache_puts
        (log_of (run (fetch Demo.host Demo.mvt_world
                        (Demo.get "/myarchive/5/3/2.mvt")))) /\
  no_cors (headers Demo.stored_tile) /\
  exists resp,
    response_of (run (fetch Demo.host Demo.mvt_world
                        (Demo.get "/myarchive/5/3/2.mvt"))) = Some resp /\
    status resp = 200 /\
    body resp = Some Demo.tile_bytes /\
    Headers.get (headers resp) "Vary" = Some "Origin" /\
    Headers.get (headers resp) "Access-Control-Allow-Origin"
      = Some "https://maps.example.com".
Proof.
  assert (is_list_path (pathname (Demo.get "/myarchive/5/3/2.mvt")) = false)
    as Hl by reflexivity.
  assert (Str.toUpperCase (method (Demo.get "/myarchive/5/3/2.mvt"))
          <> "POST") as Hp by (vm_compute; discriminate).
  assert ((url (Demo.get "/myarchive/5/3/2.mvt"), Demo.stored_tile)
            ∈ cache_puts
                (log_of (run (fetch Demo.host Demo.mvt_world
                                (Demo.get "/myarchive/5/3/2.mvt")))))
    as Hin by (vm_compute; constructor).
  split; [exact Hl |]. split; [exact Hp |]. split; [exact Hin |].
  destruct (cors_applied_at_serve_time Demo.host Demo.mvt_world
              (Demo.get "/myarchive/5/3/2.mvt") Hl Hp) as (_ & _ & Hput).
  destruct (Hput _ _ Hin) as (_ & Hno & resp & Hr & Hst & Hb & Hv & Ha).
  split; [exact Hno |]. exists resp.
  split; [exact Hr |]. split; [exact Hst |]. split; [exact Hb |].
  split; [exact Hv | exact Ha].
Defined.

(** ** Beyond the claims: how every run ends *)

Lemma ends_ret env request r : ends env request (ret r).
Proof. intros s Hs. by left. Qed.

Lemma ends_throw env request e : ends env request (throw e).
Proof. intros s Hs. by left. Qed.

Lemma ends_bind {A} env request (m : M A) (k : A -> M Response) :
  preserves nothing_stored m ->
  (forall a, ends env request (k a)) ->
  ends env request (bind m k).
Proof.
  intros Hm Hk s Hs. unfold bind. specialize (Hm s Hs).
  destruct (m s) as [[e | a] s']; [by left | by apply Hk].
Qed.

Lemma ends_try_catch env request (m : M Response) (h : Exn -> M Response) :
  ends env request m ->
  (forall e, ends env request (h e)) ->
  ends env request (try_catch m h).
Proof.
  intros Hm Hh s Hs. unfold try_catch. specialize (Hm s Hs).
  destruct (m s) as [[e | a] s'] eqn:Hms; [| done].
  apply Hh. destruct Hm as [Hm | (b & st & s0 & _ & Hr)]; [done |].
  rewrite cacheableResponse_run in Hr. discriminate Hr.
Qed.

Lemma ends_cacheableResponse env request b st :
  ends env request
    (cacheableResponse env request (allowed_origin env request) b st).
Proof. intros s Hs. right. by exists b, st, s. Qed.

Lemma ends_check_extension env request pHeader e pairs k :
  (forall r s, k (Some r) s = (inr r, s)) ->
  ends env request (k None) ->
  ends env request
    (bind (check_extension
             (cacheableResponse env request (allowed_origin env request))
             pHeader e pairs) k).
Proof.
  intros Hsome Hnone. induction pairs as [| [t c] pairs IH]; [done |].
  cbn [check_extension].
  destruct (bool_decide (tileType pHeader = t) && negb (bool_decide (e = c)));
    [| done].
  destruct (bool_decide (tileType pHeader = Mvt) && bool_decide (e = "pbf"));
    [done |].
  intros s Hs. right.
  exists (BString ("Bad request: requested ." +:+ e
                   +:+ " but archive has type ." +:+ c)), 400, s.
  split; [done |]. unfold bind. rewrite cacheableResponse_run. cbn zeta.
  cbn [ret]. by rewrite Hsome.
Qed.

Create HintDb ending.
#[local] Hint Resolve
  preserves_ret preserves_await preserves_emit preserves_set_cacheable
  preserves_set_content_type ends_ret ends_throw ends_cacheableResponse
  : ending.

(** One step through the structure of a route. *)
Ltac ends_step :=
  first
    [ progress auto with ending
    | apply ends_check_extension; [by intros |]
    | apply ends_bind; [| intros ?]
    | apply ends_try_catch; [| intros ?]
    | case_match ].

Lemma ends_checkFonts_loop env request fonts glyphs :
  ends env request
    (checkFonts_loop env
       (cacheableResponse env request (allowed_origin env request))
       fonts glyphs).
Proof.
  induction fonts as [| f fonts IH]; cbn.
  - apply ends_ret.
  - repeat ends_step.
Qed.

Lemma ends_serve_archive host env request tp :
  ends env request
    (serve_archive host env request tp
       (cacheableResponse env request (allowed_origin env request))).
Proof. unfold serve_archive. repeat ends_step. Qed.

Lemma ends_dispatch host env request tp :
  ends env request
    (dispatch host env request tp
       (cacheableResponse env request (allowed_origin env request))).
Proof.
  pose proof (ends_checkFonts_loop env request) as Hfonts.
  pose proof (ends_serve_archive host env request tp) as Harch.
  unfold dispatch, checkFonts, serve_style. repeat ends_step.
Qed.

Lemma nothing_stored_forEach_record host records results :
  preserves nothing_stored (forEach_record host records results).
Proof.
  revert results. induction records as [| record records IH]; intros results.
  - apply preserves_ret.
  - cbn. unfold parse.
    repeat first [ progress auto with ending
                 | apply preserves_bind; [| intros ?]
                 | apply preserves_throw
                 | case_match ].
Qed.

Lemma nothing_stored_listing host env :
  preserves nothing_stored (getAvailablePmTilesFromD1 host env).
Proof.
  pose proof (nothing_stored_forEach_record host) as Hrec.
  unfold getAvailablePmTilesFromD1.
  repeat first [ progress auto with ending
               | apply preserves_bind; [| intros ?]
               | case_match ].
Qed.

Lemma nothing_stored_init : nothing_stored init.
Proof. done. Qed.

(** Every run of [fetch] ends without a write to the edge cache or through
    [cacheableResponse]. *)
Lemma fetch_outcome host env request :
  outcome env request (run (fetch host env request)).
Proof.
  destruct (is_list_path (pathname request)) eqn:Hl.
  - left. unfold run, fetch. rewrite Hl.
    apply (preserves_bind nothing_stored); [| intros j; apply preserves_ret |].
    + apply nothing_stored_listing.
    + apply nothing_stored_init.
  - destruct (decide (Str.toUpperCase (method request) = "POST")) as [Hp | Hp].
    + left. unfold run, fetch. rewrite Hl. by rewrite bool_decide_eq_true_2.
    + rewrite (fetch_past_method_check _ _ _ Hl Hp).
      destruct (caches_default env !! url request) as [cached |]; [by left |].
      by apply ends_dispatch.
Qed.

Lemma cache_puts_through env request r :
  through_cacheableResponse env request r ->
  exists b st h,
    no_cors h /\
    Headers.get h "Cache-Control" = Some (cache_lifetime env) /\
    r.1 = inr (new_Response b (with_cors (allowed_origin env request) h) st) /\
    cache_puts (log r.2) = [(url request, new_Response b h st)].
Proof.
  intros (b & st & s & [Hh Hl] & ->). rewrite cacheableResponse_run.
  exists b, st,
    (Headers.set (cacheableHeaders s) "Cache-Control" (cache_lifetime env)).
  split; [by apply no_cors_set |].
  split; [apply lookup_insert_eq |]. split; [done |].
  cbn. by rewrite cache_puts_app, Hl.
Qed.

Lemma is_cors_header_false n :
  is_cors_header n = false ->
  Str.toLowerCase n <> "access-control-allow-origin" /\
  Str.toLowerCase n <> "vary".
Proof.
  unfold is_cors_header. intros H. apply orb_false_iff in H as [Ha Hv].
  by apply bool_decide_eq_false in Ha, Hv.
Qed.

(** The response a client gets and the copy that is stored differ in the
    two headers of [with_cors] only. *)
Lemma get_new_Response_with_cors b allowedOrigin h st n :
  is_cors_header n = false ->
  Headers.get (headers (new_Response b (with_cors allowedOrigin h) st)) n
  = Headers.get (headers (new_Response b h st)) n.
Proof.
  intros Hn. apply is_cors_header_false in Hn as [Ha Hv].
  destruct b; cbn [new_Response headers];
    try by apply get_with_cors_other.
  assert (Headers.has (with_cors allowedOrigin h) "Content-Type"
          = Headers.has h "Content-Type") as ->.
  { unfold Headers.has. by rewrite get_with_cors_other. }
  destruct (Headers.has h "Content-Type"); [by apply get_with_cors_other |].
  unfold Headers.get, Headers.set.
  destruct (decide (Str.toLowerCase "Content-Type" = Str.toLowerCase n))
    as [<- | Hne].
  - by rewrite !lookup_insert_eq.
  - rewrite !lookup_insert_ne by done. by apply get_with_cors_other.
Qed.

(** X1: when [fetch] ends in an exception, nothing was handed to the edge
    cache. *)
Theorem exception_never_cached host env request e :
  (run (fetch host env request)).1 = inl e ->
  cache_puts (log_of (run (fetch host env request))) = [].
Proof.
  intros He.
  destruct (fetch_outcome host env request) as [[_ Hl] | Hthrough]; [done |].
  apply cache_puts_through in Hthrough as (b & st & h & _ & _ & Hr & _).
  congruence.
Qed.

(** X2: a request writes to the edge cache at most once, and then under
    its own URL. *)
Theorem at_most_one_cache_write host env request :
  cache_puts (log_of (run (fetch host env request))) = [] \/
  exists stored,
    cache_puts (log_of (run (fetch host env request)))
    = [(url request, stored)].
Proof.
  destruct (fetch_outcome host env request) as [[_ Hl] | Hthrough];
    [by left |].
  apply cache_puts_through in Hthrough as (b & st & h & _ & _ & _ & Hputs).
  right. by eexists.
Qed.


(** X4: a round trip through the edge cache.  When a request has handed a
    response to the edge cache and a later request for the same URL, from
    whatever origin, finds that copy in the cache, the later answer has the
    status and the body of the first one and agrees with it on every header
    but [Access-Control-Allow-Origin] and [Vary]; the later request makes no
    call but the lookup. *)
Theorem cache_round_trip host env request env' request' u stored :
  (u, stored) ∈ cache_puts (log_of (run (fetch host env request))) ->
  url request' = url request ->
  is_list_path (pathname request') = false ->
  Str.toUpperCase (method request') <> "POST" ->
  caches_default env' !! url request' = Some stored ->
  exists resp resp',
    response_of (run (fetch host env request)) = Some resp /\
    response_of (run (fetch host env' request')) = Some resp' /\
    status resp' = status resp /\
    body resp' = body resp /\
    (forall n,
       is_cors_header n = false ->
       Headers.get (headers resp') n = Headers.get (headers resp) n) /\
    log_of (run (fetch host env' request')) = [EvCacheMatch (url request)].
Proof.
  intros Hin Hurl Hl' Hp' Hc'.
  destruct (fetch_outcome host env request) as [[_ Hl] | Hthrough].
  { unfold log_of in Hin. rewrite Hl in Hin. by apply elem_of_nil in Hin. }
  apply cache_puts_through in Hthrough as (b & st & h & _ & _ & Hr & Hputs).
  unfold log_of in Hin. rewrite Hputs in Hin.
  apply list_elem_of_singleton in Hin as [= -> ->].
  rewrite (fetch_past_method_check _ _ _ Hl' Hp'), Hc'.
  unfold response_of at 1. rewrite Hr. eexists _, _.
  split; [reflexivity |]. split; [reflexivity |].
  unfold serve_cached. rewrite !status_new_Response.
  split; [done |]. split.
  - unfold body_stream. by destruct b.
  - split; [| by rewrite Hurl]. intros n Hn.
    rewrite !get_new_Response_with_cors by done.
    unfold body_stream. by destruct (body (new_Response b h st)).
Qed.

(** ** Beyond the claims: the listing *)



(** A row that does not parse makes the loop raise a [SyntaxError]. *)
Lemma forEach_record_malformed host records results s :
  Exists (fun record => listing_entry host record = None) records ->
  exists msg,
    forEach_record host records results s = (inl (SyntaxError msg), s).
Proof.
  revert results. induction records as [| record records IH];
    intros results Hex; [by apply Exists_nil in Hex |].
  cbn [forEach_record]. unfold parse, bind.
  destruct (JSON_parse host (mapJson record)) as [m |] eqn:Hm;
    [| by eexists].
  destruct (JSON_parse host (layerKeys record)) as [l |] eqn:Hl;
    [| by eexists].
  cbn [ret]. apply IH. apply Exists_cons in Hex as [Hhere | Hlater]; [| done].
  unfold listing_entry in Hhere. by rewrite Hm, Hl in Hhere.
Qed.


(** X6: with no rows, or with no result at all, the listing is the empty
    object, not an error. *)
Theorem listing_empty host env request :
  is_list_path (pathname request) = true ->
  OCAP2_DATA env = inr None \/ OCAP2_DATA env = inr (Some []) ->
  run (fetch host env request) =
  (inr (new_Response (BString (JSON_stringify host (JObject JNil)))
          listing_headers 200),
   mkSt ∅ [EvD1All]).
Proof.
  intros Hl [Hd | Hd]; unfold run, fetch, getAvailablePmTilesFromD1;
    by rewrite Hl, Hd.
Qed.

(** X7: one row whose [mapJson] or [layerKeys] is not JSON makes the whole
    listing fail with a [SyntaxError]: there is no partial listing, and
    nothing but the query was asked. *)
Theorem listing_malformed host env request records :
  is_list_path (pathname request) = true ->
  OCAP2_DATA env = inr (Some records) ->
  Exists (fun record => listing_entry host record = None) records ->
  exists msg,
    run (fetch host env request)
    = (inl (SyntaxError msg), mkSt ∅ [EvD1All]).
Proof.
  intros Hl Hd Hex.
  destruct (forEach_record_malformed host records JNil (mkSt ∅ [EvD1All]) Hex)
    as (msg & Hrun).
  exists msg. unfold run, fetch, getAvailablePmTilesFromD1. rewrite Hl, Hd.
  unfold bind at 1. unfold bind at 1. unfold bind at 1.
  cbn [emit await ret init log cacheableHeaders app].
  unfold bind at 1. by rewrite Hrun.
Qed.

(** ** Beyond the claims: the allowed origin *)

Lemma fold_left_last_match {A} (P : A -> bool) (l : list A) (acc : A) :
  fold_left (fun a o => if P o then o else a) l acc
  = default acc (last (filter (fun o => P o) l)).
Proof.
  revert acc. induction l as [| o l IH]; intros acc; [done |].
  cbn [fold_left]. rewrite IH, filter_cons.
  destruct (decide (P o)) as [Ho | Ho].
  - apply Is_true_true in Ho. rewrite Ho, last_cons.
    by destruct (last (filter _ l)).
  - apply Is_true_false in Ho. by rewrite Ho.
Qed.

(** X8: the allowed origin of a request is the last entry of the
    comma-separated allow list that is the request's [Origin] or the
    wildcard, and it is empty when there is no allow list or no such
    entry. *)
Theorem allowed_origin_last_match env request :
  allowed_origin env request =
  match ALLOWED_ORIGINS env with
  | None => ""
  | Some origins =>
      default ""
        (last (filter (fun o => origin_matches request o)
                 (Str.split "," origins)))
  end.
Proof.
  unfold allowed_origin. destruct (ALLOWED_ORIGINS env) as [origins |];
    [| done].
  apply (fold_left_last_match (origin_matches request)).
Qed.

(** ** Beyond the claims: splitting paths *)

Lemma split_nonempty c s : Str.split c s <> [].
Proof.
  destruct s as [| a r]; [done |]. cbn.
  destruct (decide (a = c)); [done |]. by destruct (Str.split c r).
Qed.

Lemma split_app_sep c s t :
  Str.split c (s +:+ String c t) = Str.split c s ++ Str.split c t.
Proof.
  induction s as [| a r IH].
  - change (Str.split c (String c t) = [""] ++ Str.split c t).
    cbn [Str.split]. by rewrite decide_True.
  - change (String a r +:+ String c t) with (String a (r +:+ String c t)).
    cbn [Str.split]. rewrite IH. destruct (decide (a = c)); [done |].
    pose proof (split_nonempty c r). by destruct (Str.split c r).
Qed.

Lemma split_no_sep c s : occurs c s = false -> Str.split c s = [s].
Proof.
  induction s as [| a r IH]; [done |]. cbn. intros H.
  apply orb_false_iff in H as [Ha Hr]. apply bool_decide_eq_false in Ha.
  rewrite decide_False by done. by rewrite IH.
Qed.

Lemma last_split_suffix c stem e :
  occurs c e = false ->
  last (Str.split c (stem +:+ String c e)) = Some e.
Proof.
  intros He. rewrite split_app_sep, (split_no_sep c e) by done.
  by rewrite last_snoc.
Qed.

(** ** Beyond the claims: the style route *)

Lemma fetch_style_route host env request :
  style_request env request ->
  run (fetch host env request) =
  serve_style env (Str.substring1 (pathname request))
    (cacheableResponse env request (allowed_origin env request))
    (mkSt ∅ [EvCacheMatch (url request)]).
Proof.
  intros (Hl & Hc & Hm & Hf & Hs).
  assert (Str.toUpperCase (method request) <> "POST") as Hp.
  { unfold is_read_method in Hm. apply bool_decide_eq_true in Hm.
    rewrite !elem_of_cons in Hm.
    destruct Hm as [-> | [-> | [-> | Hm]]]; try (by vm_compute).
    by apply elem_of_nil in Hm. }
  rewrite (fetch_past_method_check _ _ _ Hl Hp), Hc.
  unfold dispatch. by rewrite Hm, Hf, Hs.
Qed.

(** X9: a style request for an existing object reads that object, under
    the path less its leading slash, and answers with its bytes and status
    200; the content type follows the text after the last dot of the key:
    [image/png] for [png], [application/json] for [json] and
    [application/octet-stream] for everything else.  The response goes to
    the edge cache. *)
Theorem style_served host env request stem e a :
  style_request env request ->
  Str.substring1 (pathname request) = stem +:+ "." +:+ e ->
  occurs "." e = false ->
  BUCKET env !! Str.substring1 (pathname request) = Some a ->
  exists resp stored,
    response_of (run (fetch host env request)) = Some resp /\
    status resp = 200 /\
    body resp = Some a /\
    Headers.get (headers resp) "Content-Type"
      = Some (if bool_decide (e = "png") then "image/png"
              else if bool_decide (e = "json") then "application/json"
              else "application/octet-stream") /\
    bucket_gets (log_of (run (fetch host env request)))
      = [Str.substring1 (pathname request)] /\
    cache_puts (log_of (run (fetch host env request)))
      = [(url request, stored)] /\
    status stored = 200 /\
    body stored = Some a.
Proof.
  intros Hreq Hkey He Ha. rewrite (fetch_style_route _ _ _ Hreq).
  unfold serve_style, bind. cbn [emit]. rewrite Ha.
  cbn [set_cacheable]. rewrite cacheableResponse_run.
  eexists _, _. split; [reflexivity |]. split; [done |]. split; [done |].
  split; [| by repeat split].
  cbn [headers new_Response]. rewrite get_with_cors_other by done.
  unfold Headers.get, Headers.set. rewrite lookup_insert_ne by done.
  cbn [cacheableHeaders]. rewrite lookup_insert_eq. f_equal.
  rewrite Hkey. change ("." +:+ e) with (String "." e).
  rewrite last_split_suffix by done.
  repeat case_bool_decide; congruence.
Qed.

(** X10: a style request for a missing object is answered with status 404
    and the text [File not found], and this answer is handed to the edge
    cache under the request URL. *)
Theorem style_missing_cached host env request :
  style_request env request ->
  BUCKET env !! Str.substring1 (pathname request) = None ->
  exists resp stored,
    response_of (run (fetch host env request)) = Some resp /\
    status resp = 404 /\
    body resp = Some (list_byte_of_string "File not found") /\
    cache_puts (log_of (run (fetch host env request)))
      = [(url request, stored)] /\
    status stored = 404 /\
    body stored = Some (list_byte_of_string "File not found").
Proof.
  intros Hreq Ha. rewrite (fetch_style_route _ _ _ Hreq).
  unfold serve_style, bind. cbn [emit]. rewrite Ha.
  rewrite cacheableResponse_run. eexists _, _. by repeat split.
Qed.

(** ** Beyond the claims: the font route *)




Lemma replace_pct20_cons a r :
  Str.replace_pct20 (String a r) =
  match r with
  | String c (String d r') =>
      if bool_decide (a = "%"%char /\ c = "2"%char /\ d = "0"%char)
      then String " " (Str.replace_pct20 r')
      else String a (Str.replace_pct20 r)
  | _ => String a (Str.replace_pct20 r)
  end.
Proof.
  destruct (decide (a = "%"%char)) as [-> | Ha].
  - destruct r as [| c [| d r']]; try done;
      try (by destruct c as [[] [] [] [] [] [] [] []]).
    destruct (decide (c = "2"%char)) as [-> | Hc].
    + destruct (decide (d = "0"%char)) as [-> | Hd]; [done |].
      rewrite bool_decide_eq_false_2 by (intros (? & ? & ?); congruence).
      by destruct d as [[] [] [] [] [] [] [] []].
    + rewrite bool_decide_eq_false_2 by (intros (? & ? & ?); congruence).
      by destruct c as [[] [] [] [] [] [] [] []].
  - assert (Str.replace_pct20 (String a r)
            = String a (Str.replace_pct20 r)) as ->
      by (by destruct a as [[] [] [] [] [] [] [] []]).
    destruct r as [| c [| d r']]; try done.
    by rewrite bool_decide_eq_false_2 by (intros (? & ? & ?); congruence).
Qed.

(** Decoding [%20] brings no slash into a path and takes none out. *)
Lemma occurs_slash_replace_pct20 s :
  occurs "/" (Str.replace_pct20 s) = occurs "/" s.
Proof.
  assert (forall n s, (String.length s <= n)%nat ->
            occurs "/" (Str.replace_pct20 s) = occurs "/" s) as H.
  { induction n as [| n IH]; intros [| a r] Hlen; try done.
    { cbn in Hlen. lia. }
    rewrite replace_pct20_cons. destruct r as [| c [| d r']].
    - done.
    - cbn [occurs]. by rewrite (IH (String c "")) by (cbn in *; lia).
    - case_bool_decide as Hm.
      + destruct Hm as (-> & -> & ->). cbn [occurs].
        by rewrite IH by (cbn in *; lia).
      + cbn [occurs]. by rewrite (IH (String c (String d r')))
          by (cbn in *; lia). }
  by apply (H (String.length s)).
Qed.

Lemma cache_puts_probes glyphs fonts :
  cache_puts ((EvBucketGet ∘ font_key glyphs) <$> fonts) = [].
Proof. by induction fonts. Qed.

Lemma fetch_font_route_request host env request :
  font_route_request env request ->
  run (fetch host env request) =
  checkFonts env (Str.substring1 (pathname request))
    (cacheableResponse env request (allowed_origin env request))
    (mkSt ∅ [EvCacheMatch (url request)]).
Proof. intros (Hl & Hc & Hm & Hf). by apply fetch_font_route. Qed.

(** X11: when none of the families of a font request has an object, every
    family was probed, in the listed order, and the answer is a bare 404
    with the text [Font not found]: it carries no [Vary], no
    [Access-Control-Allow-Origin] and no [Cache-Control], and it is not
    handed to the edge cache. *)
Theorem font_missing_not_cached host env request fonts glyphs :
  font_route_request env request ->
  font_request (Str.substring1 (pathname request)) = Some (fonts, glyphs) ->
  Forall (fun f => BUCKET env !! font_key glyphs f = None) fonts ->
  run (fetch host env request) =
  (inr (mkResponse 404 {[ "content-type" := "text/plain;charset=UTF-8" ]}
          (Some (list_byte_of_string "Font not found"))),
   mkSt ∅ (EvCacheMatch (url request)
             :: ((EvBucketGet ∘ font_key glyphs) <$> fonts))) /\
  cache_puts (log_of (run (fetch host env request))) = [].
Proof.
  intros Hreq Hfont Hnone.
  assert (run (fetch host env request) =
          (inr (mkResponse 404 {[ "content-type" := "text/plain;charset=UTF-8" ]}
                  (Some (list_byte_of_string "Font not found"))),
           mkSt ∅ (EvCacheMatch (url request)
                     :: ((EvBucketGet ∘ font_key glyphs) <$> fonts))))
    as Hrun.
  { rewrite (fetch_font_route_request _ _ _ Hreq).
    unfold font_request in Hfont. unfold checkFonts.
    destruct (Str.split "/" (Str.replace_pct20 _) !! 1%nat)
      as [families |]; [| done].
    destruct (Str.split "/" (Str.replace_pct20 _) !! 2%nat)
      as [g |]; [| done].
    injection Hfont as <- <-. cbn [Str.interpolate].
    rewrite checkFonts_loop_first_hit.
    assert (list_find
              (fun f => is_Some (BUCKET env !! font_key g f))
              (Str.split "," families) = None) as ->; [| done].
    apply list_find_None. eapply Forall_impl; [exact Hnone |].
    intros f Hf [a Ha]. congruence. }
  split; [exact Hrun |]. rewrite Hrun. unfold log_of. cbn.
  apply cache_puts_probes.
Qed.

(** X12: a font request whose path has no slash after [/fonts...], so
    that it names no family, makes [fetch] raise a [TypeError]; the store
    is not read and nothing is handed to the edge cache. *)
Theorem font_path_without_family host env request :
  font_route_request env request ->
  occurs "/" (Str.substring1 (pathname request)) = false ->
  run (fetch host env request) =
  (inl (TypeError "Cannot read properties of undefined"),
   mkSt ∅ [EvCacheMatch (url request)]).
Proof.
  intros Hreq Hno. rewrite (fetch_font_route_request _ _ _ Hreq).
  unfold checkFonts. rewrite split_no_sep; [done |].
  by rewrite occurs_slash_replace_pct20.
Qed.


(** ** Beyond the claims: the archive routes *)

Lemma fetch_archive_request host env request tp :
  archive_request host env request tp ->
  run (fetch host env request) =
  serve_archive host env request tp
    (cacheableResponse env request (allowed_origin env request))
    (mkSt ∅ [EvCacheMatch (url request)]).
Proof.
  intros (Hl & Hp & Hc & Hf & Hs & Htp & Hok).
  rewrite (fetch_past_method_check _ _ _ Hl Hp), Hc.
  unfold dispatch. by rewrite Hf, Hs, Htp, Hok.
Qed.

(** X14: a request whose path parses to an archive without a tile is a
    metadata request.  It is answered with status 200 and, as
    [application/json], with the tile JSON the reader builds for the base
    URL [https://<host>/<archive>], where the host is [PUBLIC_HOSTNAME] if
    that is set and not empty and the host of the request otherwise.  The
    extension is not checked, no tile is fetched, and the answer goes to
    the edge cache. *)
Theorem metadata_served host env request tp pHeader t :
  archive_request host env request tp ->
  tile tp = None ->
  getHeader env (name tp) = inr pHeader ->
  getTileJson env (name tp)
    ("https://" +:+ Str.or_else (PUBLIC_HOSTNAME env) (hostname request)
     +:+ "/" +:+ name tp) = inr t ->
  exists resp stored,
    response_of (run (fetch host env request)) = Some resp /\
    status resp = 200 /\
    body resp = Some (list_byte_of_string (JSON_stringify host t)) /\
    Headers.get (headers resp) "Content-Type" = Some "application/json" /\
    log_of (run (fetch host env request))
    = [EvCacheMatch (url request);
       EvGetHeader (name tp);
       EvGetTileJson (name tp) (tilejson_base env request tp);
       EvCachePut (url request) stored] /\
    status stored = 200 /\
    body stored = body resp.
Proof.
  intros Hreq Ht Hh Hj. rewrite (fetch_archive_request _ _ _ _ Hreq).
  unfold serve_archive, try_catch.
  unfold bind at 1. cbn [emit log cacheableHeaders app].
  unfold bind at 1. rewrite Hh. cbn [await ret]. rewrite Ht.
  unfold bind at 1. cbn [set_cacheable log cacheableHeaders].
  unfold bind at 1. cbn [emit log cacheableHeaders app].
  unfold bind at 1. rewrite Hj. cbn [await ret].
  rewrite cacheableResponse_run. cbn zeta.
  eexists _, _. split; [reflexivity |]. split; [done |]. split; [done |].
  split; [| by repeat split].
  cbn [headers new_Response]. cbn [cacheableHeaders].
  assert (forall h : Headers.t,
            Headers.get h "Content-Type" = Some "application/json" ->
            Headers.has h "Content-Type" = true) as Hhas.
  { intros h Hget. unfold Headers.has. rewrite Hget.
    by apply bool_decide_eq_true_2. }
  rewrite Hhas.
  - rewrite get_with_cors_other by done. unfold Headers.get, Headers.set.
    rewrite lookup_insert_ne by done. apply lookup_insert_eq.
  - rewrite get_with_cors_other by done. unfold Headers.get, Headers.set.
    rewrite lookup_insert_ne by done. apply lookup_insert_eq.
Qed.

(** X15: when the reader cannot find the archive, so that reading the
    header raises [KeyNotFoundError], the request is answered with status
    404 and the text [Archive not found]; this answer is handed to the
    edge cache, and the reader is not asked again. *)
Theorem archive_not_found host env request tp msg :
  archive_request host env request tp ->
  getHeader env (name tp) = inl (KeyNotFoundError msg) ->
  exists resp stored,
    response_of (run (fetch host env request)) = Some resp /\
    status resp = 404 /\
    body resp = Some (list_byte_of_string "Archive not found") /\
    Headers.get (headers resp) "Content-Type"
      = Some "text/plain;charset=UTF-8" /\
    log_of (run (fetch host env request))
    = [EvCacheMatch (url request);
       EvGetHeader (name tp);
       EvCachePut (url request) stored] /\
    status stored = 404.
Proof.
  intros Hreq Hh. rewrite (fetch_archive_request _ _ _ _ Hreq).
  unfold serve_archive, try_catch.
  unfold bind at 1. cbn [emit log cacheableHeaders app].
  unfold bind at 1. rewrite Hh. cbn [await throw].
  rewrite cacheableResponse_run. cbn zeta.
  eexists _, _. split; [reflexivity |]. split; [done |]. split; [done |].
  split; [| by repeat split].
  cbn [headers new_Response cacheableHeaders].
  assert (Headers.has
            (with_cors (allowed_origin env request)
               (Headers.set ∅ "Cache-Control"
                  (Str.or_else (CACHE_CONTROL env) "public, max-age=86400")))
            "Content-Type" = false) as ->.
  { unfold Headers.has. rewrite get_with_cors_other by done.
    unfold Headers.get, Headers.set. by rewrite lookup_insert_ne by done. }
  apply lookup_insert_eq.
Qed.

(** X16: when the archive disappears between the header and the tile
    JSON of a metadata request, the request is answered with status 404 and
    the text [Archive not found] all the same, but under the content type
    [application/json], which was set before the reader was asked. *)
Theorem metadata_archive_not_found host env request tp pHeader msg :
  archive_request host env request tp ->
  tile tp = None ->
  getHeader env (name tp) = inr pHeader ->
  getTileJson env (name tp) (tilejson_base env request tp)
    = inl (KeyNotFoundError msg) ->
  exists resp stored,
    response_of (run (fetch host env request)) = Some resp /\
    status resp = 404 /\
    body resp = Some (list_byte_of_string "Archive not found") /\
    Headers.get (headers resp) "Content-Type" = Some "application/json" /\
    cache_puts (log_of (run (fetch host env request)))
    = [(url request, stored)] /\
    status stored = 404 /\
    Headers.get (headers stored) "Content-Type" = Some "application/json".
Proof.
  intros Hreq Ht Hh Hj. rewrite (fetch_archive_request _ _ _ _ Hreq).
  unfold serve_archive, try_catch.
  unfold bind at 1. cbn [emit log cacheableHeaders app].
  unfold bind at 1. rewrite Hh. cbn [await ret]. rewrite Ht.
  unfold bind at 1. cbn [set_cacheable log cacheableHeaders].
  unfold bind at 1. cbn [emit log cacheableHeaders app].
  unfold bind at 1. unfold tilejson_base in Hj. rewrite Hj. cbn [await throw].
  rewrite cacheableResponse_run. cbn zeta.
  assert (forall h : Headers.t,
            Headers.get h "Content-Type" = Some "application/json" ->
            Headers.has h "Content-Type" = true) as Hhas.
  { intros h Hget. unfold Headers.has. rewrite Hget.
    by apply bool_decide_eq_true_2. }
  assert (Headers.get
            (Headers.set
               (Headers.set ∅ "Content-Type" "application/json")
               "Cache-Control"
               (Str.or_else (CACHE_CONTROL env) "public, max-age=86400"))
            "Content-Type" = Some "application/json") as Hct.
  { unfold Headers.get, Headers.set.
    rewrite lookup_insert_ne by done. apply lookup_insert_eq. }
  eexists _, _. split; [reflexivity |]. split; [done |]. split; [done |].
  cbn [headers new_Response cacheableHeaders]. split.
  { rewrite Hhas; rewrite get_with_cors_other by done; exact Hct. }
  split; [reflexivity |]. split; [done |].
  cbn [headers new_Response cacheableHeaders]. by rewrite (Hhas _ Hct).
Qed.

(** X17: any other exception of the reader is not turned into a response:
    when reading the header raises an exception that is not a
    [KeyNotFoundError], [fetch] raises that exception, unchanged, and
    nothing is handed to the edge cache. *)
Theorem reader_exception_propagates host env request tp e :
  archive_request host env request tp ->
  getHeader env (name tp) = inl e ->
  (forall msg, e <> KeyNotFoundError msg) ->
  run (fetch host env request) =
  (inl e, mkSt ∅ [EvCacheMatch (url request); EvGetHeader (name tp)]).
Proof.
  intros Hreq Hh Hne. rewrite (fetch_archive_request _ _ _ _ Hreq).
  unfold serve_archive, try_catch.
  unfold bind at 1. cbn [emit log cacheableHeaders app].
  unfold bind at 1. rewrite Hh. cbn [await throw].
  destruct e; try done. by destruct (Hne msg).
Qed.

(** X18: past the listing, [fetch] never raises a [KeyNotFoundError]: a
    missing archive always becomes a response. *)
Theorem never_raises_KeyNotFoundError host env request msg :
  is_list_path (pathname request) = false ->
  (run (fetch host env request)).1 <> inl (KeyNotFoundError msg).
Proof.
  intros Hl.
  destruct (decide (Str.toUpperCase (method request) = "POST")) as [Hp | Hp].
  { unfold run, fetch. rewrite Hl. by rewrite bool_decide_eq_true_2. }
  rewrite (fetch_past_method_check _ _ _ Hl Hp).
  destruct (caches_default env !! url request) as [cached |]; [done |].
  unfold dispatch.
  destruct (is_read_method (method request)
            && Str.startsWith (pathname request) "/fonts").
  { unfold checkFonts.
    destruct (Str.split "/" _ !! 1%nat) as [families |]; [| done].
    rewrite checkFonts_loop_first_hit.
    destruct (list_find _ _) as [[i f] |]; [| done].
    unfold bind. cbn [set_cacheable]. by rewrite cacheableResponse_run. }
  destruct (is_read_method (method request)
            && Str.startsWith (pathname request) "/styles").
  { unfold serve_style, bind. cbn [emit].
    destruct (BUCKET env !! _); cbn [set_cacheable];
      by rewrite cacheableResponse_run. }
  destruct (negb (ok (tile_path host (pathname request)))); [done |].
  unfold serve_archive, try_catch.
  match goal with
  | |- context [match ?m ?s with _ => _ end] =>
      destruct (m s) as [[e | a] s']
  end; [| done].
  by destruct e.
Qed.

(** X19: a path that does not parse and is not taken by the font or the
    style route is answered, on a miss in the edge cache, with a bare 404
    and the text [Invalid URL]; neither the store nor the reader is asked,
    and nothing is handed to the edge cache. *)
Theorem invalid_url_404 host env request :
  is_list_path (pathname request) = false ->
  Str.toUpperCase (method request) <> "POST" ->
  caches_default env !! url request = None ->
  is_read_method (method request)
    && Str.startsWith (pathname request) "/fonts" = false ->
  is_read_method (method request)
    && Str.startsWith (pathname request) "/styles" = false ->
  ok (tile_path host (pathname request)) = false ->
  run (fetch host env request) =
  (inr (mkResponse 404 {[ "content-type" := "text/plain;charset=UTF-8" ]}
          (Some (list_byte_of_string "Invalid URL"))),
   mkSt ∅ [EvCacheMatch (url request)]).
Proof.
  intros Hl Hp Hc Hf Hs Hok.
  rewrite (fetch_past_method_check _ _ _ Hl Hp), Hc.
  unfold dispatch. by rewrite Hf, Hs, Hok.
Qed.

(** *** Every answer of the archive routes is cached *)

Lemma always_caches_throw env request e : always_caches env request (throw e).
Proof. intros s Hs. left. by exists e. Qed.

Lemma always_caches_cacheableResponse env request b st :
  always_caches env request
    (cacheableResponse env request (allowed_origin env request) b st).
Proof. intros s Hs. right. by exists b, st, s. Qed.

Lemma always_caches_bind {A} env request (m : M A) (k : A -> M Response) :
  preserves nothing_stored m ->
  (forall a, always_caches env request (k a)) ->
  always_caches env request (bind m k).
Proof.
  intros Hm Hk s Hs. unfold bind. specialize (Hm s Hs).
  destruct (m s) as [[e | a] s']; [| by apply Hk].
  left. by exists e.
Qed.

Lemma always_caches_try_catch env request (m : M Response)
    (h : Exn -> M Response) :
  always_caches env request m ->
  (forall e, always_caches env request (h e)) ->
  always_caches env request (try_catch m h).
Proof.
  intros Hm Hh s Hs. unfold try_catch. specialize (Hm s Hs).
  destruct (m s) as [[e | a] s'] eqn:Hms; [| done].
  apply Hh. destruct Hm as [(e' & _ & Hm) | (b & st & s0 & _ & Hr)]; [done |].
  rewrite cacheableResponse_run in Hr. discriminate Hr.
Qed.

Lemma always_caches_check_extension env request pHeader e pairs k :
  (forall r s, k (Some r) s = (inr r, s)) ->
  always_caches env request (k None) ->
  always_caches env request
    (bind (check_extension
             (cacheableResponse env request (allowed_origin env request))
             pHeader e pairs) k).
Proof.
  intros Hsome Hnone. induction pairs as [| [t c] pairs IH]; [done |].
  cbn [check_extension].
  destruct (bool_decide (tileType pHeader = t) && negb (bool_decide (e = c)));
    [| done].
  destruct (bool_decide (tileType pHeader = Mvt) && bool_decide (e = "pbf"));
    [done |].
  intros s Hs. right.
  exists (BString ("Bad request: requested ." +:+ e
                   +:+ " but archive has type ." +:+ c)), 400, s.
  split; [done |]. unfold bind. rewrite cacheableResponse_run. cbn zeta.
  cbn [ret]. by rewrite Hsome.
Qed.

Create HintDb caching.
#[local] Hint Resolve
  preserves_ret preserves_await preserves_emit preserves_set_cacheable
  preserves_set_content_type always_caches_throw
  always_caches_cacheableResponse : caching.

Lemma always_caches_serve_archive host env request tp :
  always_caches env request
    (serve_archive host env request tp
       (cacheableResponse env request (allowed_origin env request))).
Proof.
  unfold serve_archive.
  repeat first
    [ progress auto with caching
    | apply always_caches_check_extension; [by intros |]
    | apply always_caches_bind; [| intros ?]
    | apply always_caches_try_catch; [| intros ?]
    | case_match ].
Qed.

(** X20: whatever the archive routes answer (a tile, the metadata, the
    204 of a missing tile, the 400 of a wrong extension, the 404 of a zoom
    out of range or of a missing archive) is handed to the edge cache
    under the request URL, with the status and the body the client gets. *)
Theorem archive_answers_are_cached host env request tp resp :
  archive_request host env request tp ->
  response_of (run (fetch host env request)) = Some resp ->
  exists stored,
    cache_puts (log_of (run (fetch host env request)))
    = [(url request, stored)] /\
    status stored = status resp /\
    body stored = body resp.
Proof.
  intros Hreq. rewrite (fetch_archive_request _ _ _ _ Hreq).
  destruct (always_caches_serve_archive host env request tp
              (mkSt ∅ [EvCacheMatch (url request)]))
    as [(e & He & _) | Hthrough].
  { by split; [apply no_cors_empty |]. }
  { unfold response_of. by rewrite He. }
  apply cache_puts_through in Hthrough as (b & st & h & _ & _ & Hr & Hputs).
  unfold response_of, log_of. rewrite Hr, Hputs. intros [= <-].
  eexists. split; [reflexivity |].
  rewrite !status_new_Response. split; [done |]. apply body_new_Response.
Qed.

(** ** The further properties on concrete requests *)

(** A font path without a family raises, and nothing is stored. *)
Lemma exception_never_cached_witness :
  (run (fetch Demo.host Demo.mvt_world (Demo.get "/fonts"))).1
  = inl (TypeError "Cannot read properties of undefined") /\
  cache_puts (log_of (run (fetch Demo.host Demo.mvt_world
                            (Demo.get "/fonts")))) = [].
Proof.
  assert ((run (fetch Demo.host Demo.mvt_world (Demo.get "/fonts"))).1
          = inl (TypeError "Cannot read properties of undefined")) as He
    by (vm_compute; reflexivity).
  split; [exact He |]. exact (exception_never_cached _ _ _ _ He).
Defined.


(** The tile is asked for again, from another site, and found in the
    cache. *)
Lemma cache_round_trip_witness :
  (url (Demo.get "/myarchive/5/3/2.mvt"), Demo.stored_tile)
    ∈ cache_puts
        (log_of (run (fetch Demo.host Demo.mvt_world
                        (Demo.get "/myarchive/5/3/2.mvt")))) /\
  caches_default Demo.tile_cached_world
    !! url (Demo.from_elsewhere (Demo.get "/myarchive/5/3/2.mvt"))
    = Some Demo.stored_tile /\
  exists resp resp',
    response_of (run (fetch Demo.host Demo.mvt_world
                        (Demo.get "/myarchive/5/3/2.mvt"))) = Some resp /\
    response_of (run (fetch Demo.host Demo.tile_cached_world
                        (Demo.from_elsewhere
                           (Demo.get "/myarchive/5/3/2.mvt")))) = Some resp' /\
    status resp' = status resp /\
    body resp' = body resp.
Proof.
  assert ((url (Demo.get "/myarchive/5/3/2.mvt"), Demo.stored_tile)
            ∈ cache_puts
                (log_of (run (fetch Demo.host Demo.mvt_world
                                (Demo.get "/myarchive/5/3/2.mvt")))))
    as Hin by (vm_compute; constructor).
  assert (caches_default Demo.tile_cached_world
            !! url (Demo.from_elsewhere (Demo.get "/myarchive/5/3/2.mvt"))
          = Some Demo.stored_tile) as Hc by (vm_compute; reflexivity).
  split; [exact Hin |]. split; [exact Hc |].
  destruct (cache_round_trip Demo.host Demo.mvt_world
              (Demo.get "/myarchive/5/3/2.mvt") Demo.tile_cached_world
              (Demo.from_elsewhere (Demo.get "/myarchive/5/3/2.mvt"))
              _ _ Hin)
    as (resp & resp' & Hr & Hr' & Hst & Hb & _).
  - reflexivity.
  - reflexivity.
  - vm_compute; discriminate.
  - exact Hc.
  - exists resp, resp'. by repeat split.
Defined.


(** An empty metadata table. *)
Lemma listing_empty_witness :
  summary (run (fetch Demo.host Demo.mvt_world (Demo.get "/list")))
  = Some (200, Some "application/json", Some "{}").
Proof.
  rewrite (listing_empty Demo.host Demo.mvt_world (Demo.get "/list")).
  - reflexivity.
  - reflexivity.
  - right. reflexivity.
Defined.

(** One of two rows has a column that is not JSON. *)
Lemma listing_malformed_witness :
  Exists (fun record => listing_entry Demo.strict_host record = None)
    [Demo.altis; Demo.broken] /\
  exists msg,
    run (fetch Demo.strict_host
           (Demo.listing_world [Demo.altis; Demo.broken]) (Demo.get "/list"))
    = (inl (SyntaxError msg), mkSt ∅ [EvD1All]).
Proof.
  assert (Exists (fun record => listing_entry Demo.strict_host record = None)
            [Demo.altis; Demo.broken]) as Hex
    by (right; left; reflexivity).
  split; [exact Hex |].
  apply (listing_malformed Demo.strict_host
           (Demo.listing_world [Demo.altis; Demo.broken]) (Demo.get "/list")
           [Demo.altis; Demo.broken]); [reflexivity | reflexivity | exact Hex].
Defined.

(** A sprite sheet. *)
Lemma style_served_witness :
  style_request Demo.style_world (Demo.get "/styles/sprite.png") /\
  exists resp,
    response_of (run (fetch Demo.host Demo.style_world
                        (Demo.get "/styles/sprite.png"))) = Some resp /\
    status resp = 200 /\
    body resp = Some Demo.glyphs /\
    Headers.get (headers resp) "Content-Type" = Some "image/png".
Proof.
  assert (style_request Demo.style_world (Demo.get "/styles/sprite.png"))
    as Hreq by evaluate.
  split; [exact Hreq |].
  destruct (style_served Demo.host Demo.style_world
              (Demo.get "/styles/sprite.png") "styles/sprite" "png"
              Demo.glyphs Hreq)
    as (resp & stored & Hr & Hst & Hb & Hct & _).
  - reflexivity.
  - reflexivity.
  - vm_compute; reflexivity.
  - exists resp. by repeat split.
Defined.

(** A style that the store does not have. *)
Lemma style_missing_cached_witness :
  style_request Demo.mvt_world (Demo.get "/styles/dark.json") /\
  exists resp stored,
    response_of (run (fetch Demo.host Demo.mvt_world
                        (Demo.get "/styles/dark.json"))) = Some resp /\
    status resp = 404 /\
    cache_puts (log_of (run (fetch Demo.host Demo.mvt_world
                              (Demo.get "/styles/dark.json"))))
    = [(url (Demo.get "/styles/dark.json"), stored)].
Proof.
  assert (style_request Demo.mvt_world (Demo.get "/styles/dark.json"))
    as Hreq by evaluate.
  split; [exact Hreq |].
  destruct (style_missing_cached Demo.host Demo.mvt_world
              (Demo.get "/styles/dark.json") Hreq)
    as (resp & stored & Hr & Hst & _ & Hputs & _).
  - vm_compute; reflexivity.
  - exists resp, stored. by repeat split.
Defined.

(** Two families, neither of which has glyphs. *)
Lemma font_missing_not_cached_witness :
  font_route_request Demo.mvt_world (Demo.get "/fonts/A,C/0-255.pbf") /\
  cache_puts (log_of (run (fetch Demo.host Demo.mvt_world
                            (Demo.get "/fonts/A,C/0-255.pbf")))) = [].
Proof.
  assert (font_route_request Demo.mvt_world (Demo.get "/fonts/A,C/0-255.pbf"))
    as Hreq by evaluate.
  split; [exact Hreq |].
  apply (font_missing_not_cached Demo.host Demo.mvt_world
           (Demo.get "/fonts/A,C/0-255.pbf") ["A"; "C"] "0-255.pbf" Hreq).
  - reflexivity.
  - repeat constructor.
Defined.

(** The bare path [/fonts]. *)
Lemma font_path_without_family_witness :
  font_route_request Demo.mvt_world (Demo.get "/fonts") /\
  run (fetch Demo.host Demo.mvt_world (Demo.get "/fonts")) =
  (inl (TypeError "Cannot read properties of undefined"),
   mkSt ∅ [EvCacheMatch (url (Demo.get "/fonts"))]).
Proof.
  assert (font_route_request Demo.mvt_world (Demo.get "/fonts"))
    as Hreq by evaluate.
  split; [exact Hreq |].
  apply (font_path_without_family _ _ _ Hreq). reflexivity.
Defined.


(** The metadata of the archive. *)
Lemma metadata_served_witness :
  archive_request Demo.host Demo.mvt_world (Demo.get "/myarchive.json")
    (mkTilePath true "myarchive" None "json") /\
  exists resp,
    response_of (run (fetch Demo.host Demo.mvt_world
                        (Demo.get "/myarchive.json"))) = Some resp /\
    status resp = 200 /\
    body resp = Some (list_byte_of_string "{}") /\
    Headers.get (headers resp) "Content-Type" = Some "application/json".
Proof.
  assert (archive_request Demo.host Demo.mvt_world
            (Demo.get "/myarchive.json")
            (mkTilePath true "myarchive" None "json")) as Hreq by evaluate.
  split; [exact Hreq |].
  destruct (metadata_served Demo.host Demo.mvt_world
              (Demo.get "/myarchive.json")
              (mkTilePath true "myarchive" None "json")
              (mkHeader 0 10 Mvt) (JRaw "{}") Hreq)
    as (resp & stored & Hr & Hst & Hb & Hct & _).
  - reflexivity.
  - reflexivity.
  - reflexivity.
  - exists resp. by repeat split.
Defined.

(** A tile of an archive that the store does not have. *)
Lemma archive_not_found_witness :
  archive_request Demo.host Demo.mvt_world (Demo.get "/other/5/3/2.mvt")
    (mkTilePath true "other" (Some (5, 3, 2)) "mvt") /\
  exists resp,
    response_of (run (fetch Demo.host Demo.mvt_world
                        (Demo.get "/other/5/3/2.mvt"))) = Some resp /\
    status resp = 404 /\
    body resp = Some (list_byte_of_string "Archive not found").
Proof.
  assert (archive_request Demo.host Demo.mvt_world
            (Demo.get "/other/5/3/2.mvt")
            (mkTilePath true "other" (Some (5, 3, 2)) "mvt")) as Hreq
    by evaluate.
  split; [exact Hreq |].
  destruct (archive_not_found Demo.host Demo.mvt_world
              (Demo.get "/other/5/3/2.mvt")
              (mkTilePath true "other" (Some (5, 3, 2)) "mvt")
              "Archive not found" Hreq)
    as (resp & stored & Hr & Hst & Hb & _).
  - reflexivity.
  - exists resp. by repeat split.
Defined.

(** The metadata of an archive that vanishes after its header was read. *)
Lemma metadata_archive_not_found_witness :
  archive_request Demo.host Demo.vanishing_world (Demo.get "/myarchive.json")
    (mkTilePath true "myarchive" None "json") /\
  exists resp,
    response_of (run (fetch Demo.host Demo.vanishing_world
                        (Demo.get "/myarchive.json"))) = Some resp /\
    status resp = 404 /\
    Headers.get (headers resp) "Content-Type" = Some "application/json".
Proof.
  assert (archive_request Demo.host Demo.vanishing_world
            (Demo.get "/myarchive.json")
            (mkTilePath true "myarchive" None "json")) as Hreq by evaluate.
  split; [exact Hreq |].
  destruct (metadata_archive_not_found Demo.host Demo.vanishing_world
              (Demo.get "/myarchive.json")
              (mkTilePath true "myarchive" None "json")
              (mkHeader 0 10 Mvt) "Archive not found" Hreq)
    as (resp & stored & Hr & Hst & _ & Hct & _).
  - reflexivity.
  - reflexivity.
  - reflexivity.
  - exists resp. by repeat split.
Defined.

(** An archive that the reader rejects. *)
Lemma reader_exception_propagates_witness :
  archive_request Demo.host Demo.failing_world
    (Demo.get "/myarchive/5/3/2.mvt") (Demo.parsed 5 "mvt") /\
  run (fetch Demo.host Demo.failing_world (Demo.get "/myarchive/5/3/2.mvt"))
  = (inl (Error "Wrong magic number for PMTiles archive"),
     mkSt ∅ [EvCacheMatch (url (Demo.get "/myarchive/5/3/2.mvt"));
             EvGetHeader "myarchive"]).
Proof.
  assert (archive_request Demo.host Demo.failing_world
            (Demo.get "/myarchive/5/3/2.mvt") (Demo.parsed 5 "mvt")) as Hreq
    by evaluate.
  split; [exact Hreq |].
  apply (reader_exception_propagates _ _ _ _ _ Hreq).
  - reflexivity.
  - discriminate.
Defined.

(** A tile of an archive that the store does not have, again. *)
Lemma never_raises_KeyNotFoundError_witness :
  is_list_path (pathname (Demo.get "/other/5/3/2.mvt")) = false /\
  (run (fetch Demo.host Demo.mvt_world (Demo.get "/other/5/3/2.mvt"))).1
  <> inl (KeyNotFoundError "Archive not found").
Proof.
  split; [reflexivity |].
  apply never_raises_KeyNotFoundError. reflexivity.
Defined.

(** A path that is no tile path. *)
Lemma invalid_url_404_witness :
  summary (run (fetch Demo.host Demo.mvt_world (Demo.get "/nothing")))
  = Some (404, Some "text/plain;charset=UTF-8", Some "Invalid URL").
Proof.
  rewrite (invalid_url_404 Demo.host Demo.mvt_world (Demo.get "/nothing")).
  - reflexivity.
  - reflexivity.
  - vm_compute; discriminate.
  - reflexivity.
  - reflexivity.
  - reflexivity.
  - reflexivity.
Defined.

(** A wrong extension: the 400 is stored. *)
Lemma archive_answers_are_cached_witness :
  archive_request Demo.host Demo.mvt_world (Demo.get "/myarchive/5/3/2.png")
    (Demo.parsed 5 "png") /\
  exists resp stored,
    response_of (run (fetch Demo.host Demo.mvt_world
                        (Demo.get "/myarchive/5/3/2.png"))) = Some resp /\
    status resp = 400 /\
    cache_puts (log_of (run (fetch Demo.host Demo.mvt_world
                              (Demo.get "/myarchive/5/3/2.png"))))
    = [(url (Demo.get "/myarchive/5/3/2.png"), stored)] /\
    status stored = 400.
Proof.
  assert (archive_request Demo.host Demo.mvt_world
            (Demo.get "/myarchive/5/3/2.png") (Demo.parsed 5 "png")) as Hreq
    by evaluate.
  split; [exact Hreq |].
  destruct (run (fetch Demo.host Demo.mvt_world
                   (Demo.get "/myarchive/5/3/2.png"))) as [[e | resp] s]
    eqn:Hrun; [by vm_compute in Hrun |].
  assert (status resp = 400) as Hst.
  { vm_compute in Hrun. by injection Hrun as <- _. }
  destruct (archive_answers_are_cached Demo.host Demo.mvt_world
              (Demo.get "/myarchive/5/3/2.png") (Demo.parsed 5 "png") resp
              Hreq) as (stored & Hputs & Hst' & _).
  - by rewrite Hrun.
  - exists resp, stored. rewrite Hrun in Hputs.
    split; [done |]. split; [done |]. split; [done |]. by rewrite Hst'.
Defined.
